(** * Simulation MCP server: dispatch and result shaping

    A shallow embedding of [server.py] and of the five solvers under
    [models/], over binary64 floats.  Python floats are Rocq's primitive
    floats, Python ints are [Z], dicts are insertion-ordered association
    lists, numpy vectors are lists, a numpy matrix is the list of its rows.
    Exceptions are values of [exn] carried by the [result] monad; the
    random generator and the output directory are threaded explicitly.

    What the repository imports and does not define is kept abstract:
    libm, numpy's random generator and order statistics and scipy's
    [solve_ivp] are the interface [Externals]; the JSON schema validator,
    the output directory and the serializer are the interface [Host]; the
    clock and the uuid of a request are its [Ambient].  Logging has no
    effect on any result and is left out. *)

From Stdlib Require Import ZArith List String Ascii Bool Lia.
From Stdlib Require Import Floats.
Import ListNotations.

Set Warnings "-inexact-float".

Local Open Scope string_scope.
Local Open Scope Z_scope.

(** ** Exceptions and the error monad *)

Inductive exn : Type :=
  | TypeError (msg : string)
  | ValueError (msg : string)
  | IndexError (msg : string)
  | OverflowError (msg : string)
  | ZeroDivisionError (msg : string)
  | RuntimeError (msg : string)
  | OSError (msg : string)
  | JSONSchemaError (msg : string)
  | ValidationError (msg : string).

Inductive result (A : Type) : Type :=
  | Ok (a : A)
  | Raise (e : exn).
Arguments Ok {A} a.
Arguments Raise {A} e.

Definition bind {A B : Type} (m : result A) (k : A -> result B) : result B :=
  match m with
  | Ok a => k a
  | Raise e => Raise e
  end.

Notation "x <- m ;; k" := (bind m (fun x => k))
  (at level 61, m at next level, right associativity).
Notation "' p <- m ;; k" := (bind m (fun x => let p := x in k))
  (at level 61, p pattern, m at next level, right associativity).

(** [type(e).__name__] and [str(e)], as the server prints them. *)
Definition exn_name (e : exn) : string :=
  match e with
  | TypeError _ => "TypeError"
  | ValueError _ => "ValueError"
  | IndexError _ => "IndexError"
  | OverflowError _ => "OverflowError"
  | ZeroDivisionError _ => "ZeroDivisionError"
  | RuntimeError _ => "RuntimeError"
  | OSError _ => "OSError"
  | JSONSchemaError _ => "ValidationError"
  | ValidationError _ => "ValidationError"
  end.

Definition exn_str (e : exn) : string :=
  match e with
  | TypeError m | ValueError m | IndexError m | OverflowError m
  | ZeroDivisionError m | RuntimeError m | OSError m | JSONSchemaError m | ValidationError m => m
  end.

(** ** Python floats and ints *)

Definition pi : float := 0x1.921fb54442d18p+1%float.

(** [int(x)] on a float: truncation toward zero; NaN and the infinities
    raise. *)
Definition py_int (x : float) : result Z :=
  match Prim2SF x with
  | S754_nan => Raise (ValueError "cannot convert float NaN to integer")
  | S754_infinity _ => Raise (OverflowError "cannot convert float infinity to integer")
  | S754_zero _ => Ok 0
  | S754_finite s m e =>
      let q := if 0 <=? e then Z.pos m * 2 ^ e else Z.pos m / 2 ^ (- e) in
      Ok (if s then - q else q)
  end.

(** [float(n)] on an int: round to nearest even; beyond the binary64 range
    Python raises. *)
Definition Z2float (n : Z) : float :=
  SF2Prim (binary_normalize prec emax n 0 false).

Definition py_float_of_int (n : Z) : result float :=
  let f := Z2float n in
  if is_infinity f then Raise (OverflowError "int too large to convert to float")
  else Ok f.

(** [a / b] on two Python floats: a zero divisor raises. *)
Definition py_div (a b : float) : result float :=
  if (b =? 0)%float then Raise (ZeroDivisionError "float division by zero")
  else Ok (a / b)%float.

(** ** Lists with Python indexing *)

Definition zlen {A : Type} (l : list A) : Z := Z.of_nat (List.length l).

(** [l[i]]: negative indices count from the end, out of range raises. *)
Definition py_index {A : Type} (l : list A) (i : Z) : result A :=
  let j := if i <? 0 then i + zlen l else i in
  if j <? 0 then Raise (IndexError "index out of range")
  else match nth_error l (Z.to_nat j) with
       | Some a => Ok a
       | None => Raise (IndexError "index out of range")
       end.

Fixpoint mapM {A B : Type} (f : A -> result B) (l : list A) : result (list B) :=
  match l with
  | [] => Ok []
  | a :: l' => b <- f a ;; bs <- mapM f l' ;; Ok (b :: bs)
  end.

(** [range(lo, lo + n)] *)
Fixpoint zrange (lo : Z) (n : nat) : list Z :=
  match n with
  | O => []
  | S n' => lo :: zrange (lo + 1) n'
  end.

Definition py_range (lo hi : Z) : list Z := zrange lo (Z.to_nat (hi - lo)).

(** ** Dicts: insertion-ordered association lists *)

Section Dict.
Context {V : Type}.

Definition dict := list (string * V).

Fixpoint dict_lookup (k : string) (d : dict) : option V :=
  match d with
  | [] => None
  | (k', v) :: d' => if String.eqb k k' then Some v else dict_lookup k d'
  end.

(** [d.get(k, dflt)] *)
Definition dict_get (k : string) (dflt : V) (d : dict) : V :=
  match dict_lookup k d with
  | Some v => v
  | None => dflt
  end.

(** [k in d] *)
Definition dict_mem (k : string) (d : dict) : bool :=
  match dict_lookup k d with
  | Some _ => true
  | None => false
  end.

(** [d[k] = v]: an existing key keeps its position. *)
Fixpoint dict_set (k : string) (v : V) (d : dict) : dict :=
  match d with
  | [] => [(k, v)]
  | (k', v') :: d' =>
      if String.eqb k k' then (k, v) :: d' else (k', v') :: dict_set k v d'
  end.

(** [list(d.keys())] *)
Definition dict_keys (d : dict) : list string := map fst d.

(** A Python dict holds each key once. *)
Definition dict_wf (d : dict) : Prop := NoDup (dict_keys d).
End Dict.
Arguments dict V : clear implicits.

(** ** The numpy operations the solvers use, on lists of binary64 floats *)

Definition fzero : float := 0%float.

(** [np.linspace(start, stop, num)] with [endpoint=True]: [i*step + start],
    the last point overwritten with [stop]; a zero step keeps numpy's
    denormal-safe form [(i/div)*delta + start]. *)
Definition np_linspace (start stop : float) (num : Z) : result (list float) :=
  if num <? 0 then Raise (ValueError "Number of samples must be non-negative")
  else
    let div := num - 1 in
    let delta := (stop - start)%float in
    let idx := map Z2float (py_range 0 num) in
    let y :=
      if 0 <? div then
        let step := (delta / Z2float div)%float in
        if (step =? 0)%float
        then map (fun i => (i / Z2float div * delta)%float) idx
        else map (fun i => (i * step)%float) idx
      else map (fun i => (i * delta)%float) idx in
    let y := map (fun v => (v + start)%float) y in
    Ok (if 1 <? num then (removelast y ++ [stop])%list else y).

Definition np_sum (l : list float) : float :=
  fold_left (fun acc x => (acc + x)%float) l fzero.

(** [np.mean]: the sum over the count; an empty slice gives [0/0]. *)
Definition np_mean (l : list float) : float :=
  (np_sum l / Z2float (zlen l))%float.

Definition fmax (a b : float) : float :=
  if (b <=? a)%float || is_nan a then a else b.
Definition fmin (a b : float) : float :=
  if (a <=? b)%float || is_nan a then a else b.

(** [a.max()] and [a.min()]: NaN propagates, an empty array raises. *)
Definition np_max (l : list float) : result float :=
  match l with
  | [] => Raise (ValueError "zero-size array to reduction operation maximum which has no identity")
  | x :: l' => Ok (fold_left fmax l' x)
  end.
Definition np_min (l : list float) : result float :=
  match l with
  | [] => Raise (ValueError "zero-size array to reduction operation minimum which has no identity")
  | x :: l' => Ok (fold_left fmin l' x)
  end.

(** [a.argmax()] / [a.argmin()]: first index of the extremum; the scan
    stops at the first NaN, which counts as extremal. *)
Fixpoint arg_scan (better : float -> float -> bool)
    (l : list float) (i : Z) (best : float) (besti : Z) : Z :=
  match l with
  | [] => besti
  | x :: l' =>
      if better x best
      then if is_nan x then i else arg_scan better l' (i + 1) x i
      else arg_scan better l' (i + 1) best besti
  end.

Definition arg_ext (better : float -> float -> bool) (opname : string)
    (l : list float) : result Z :=
  match l with
  | [] => Raise (ValueError ("attempt to get " ++ opname ++ " of an empty sequence"))
  | x :: l' => Ok (if is_nan x then 0 else arg_scan better l' 1 x 0)
  end.

Definition np_argmax : list float -> result Z :=
  arg_ext (fun x best => negb (x <=? best)%float) "argmax".
Definition np_argmin : list float -> result Z :=
  arg_ext (fun x best => negb (best <=? x)%float) "argmin".

(** A matrix is the list of its rows.  [Y[r, :]], [Y[r, c]], [Y[:, c]]. *)
Definition matrix := list (list float).

Definition mat_row (Y : matrix) (r : Z) : result (list float) := py_index Y r.
Definition mat_at (Y : matrix) (r c : Z) : result float :=
  row <- py_index Y r ;; py_index row c.
Definition mat_col (Y : matrix) (c : Z) : result (list float) :=
  mapM (fun row => py_index row c) Y.

(** ** What the repository imports *)

Inductive method : Type := RK45 | RK23 | DOP853.

(** The object [solve_ivp] returns, as far as the solvers read it. *)
Record OdeResult : Type := mkOdeResult {
  sol_success : bool;
  sol_message : string;
  sol_t : list float;
  sol_y : matrix
}.

Definition rhs_fun := float -> list float -> result (list float).

Class Externals : Type := {
  (** libm, through numpy and Python's float power *)
  np_exp : float -> float;
  np_cos : float -> float;
  np_sin : float -> float;
  py_pow : float -> float -> float;
  (** numpy's order statistics over one column *)
  np_median : list float -> float;
  np_std : list float -> float;
  np_percentile : list float -> float -> float;
  (** numpy's pairwise [add.reduce] over one contiguous vector *)
  np_pairwise_sum : list float -> float;
  (** numpy's global random generator: seeding replaces the state, a draw
      of [n] normal variates advances it *)
  rng_state : Type;
  np_random_seed : Z -> result rng_state;
  np_random_normal : float -> float -> Z -> rng_state -> result (list float) * rng_state;
  (** scipy's adaptive integrator *)
  solve_ivp : rhs_fun -> float * float -> list float -> method -> list float ->
              float -> float -> result OdeResult;
  (** Python's [format(x, ".Nf")], [str(n)] and [float(s)] *)
  format_fixed : nat -> float -> string;
  str_of_int : Z -> string;
  float_of_str : string -> result float
}.

(** ** Values of a solver's metrics dict *)

Inductive pyval : Type :=
  | VFloat (f : float)
  | VInt (n : Z)
  | VStr (s : string)
  | VDict (d : dict (list float)).

Definition metrics_dict := dict pyval.

(** What every solver returns: [t, Y, metrics]. *)
Definition solver_output : Type := list float * matrix * metrics_dict.

Definition params := dict float.
Definition tspan_t : Type := float * float.

(** Elementwise binary operation on two vectors of one shape. *)
Definition vec_map2 (f : float -> float -> float) (a b : list float)
  : result (list float) :=
  if (List.length a =? List.length b)%nat
  then Ok (map (fun p => f (fst p) (snd p)) (combine a b))
  else Raise (ValueError "operands could not be broadcast together").

Definition np_deg2rad (x : float) : float := (x * (pi / 180))%float.

Section Solvers.
Context {ext : Externals}.

(** *** models/sir.py *)

Definition sir_rhs (beta gamma : float) : rhs_fun := fun _ y =>
  match y with
  | [Sv; Iv; Rv] =>
      Ok [ (- beta * Sv * Iv)%float;
           (beta * Sv * Iv - gamma * Iv)%float;
           (gamma * Iv)%float ]
  | _ => Raise (ValueError "not enough values to unpack")
  end.

Definition simulate_sir (parameters y0 : params) (tspan : tspan_t)
    (steps : Z) (meth : method) : result solver_output :=
  let beta := dict_get "beta" 0.3%float parameters in
  let gamma := dict_get "gamma" 0.1%float parameters in
  let S0 := dict_get "S" 0.99%float y0 in
  let I0 := dict_get "I" 0.01%float y0 in
  let R0 := dict_get "R" 0.0%float y0 in
  let y0_vec := [S0; I0; R0] in
  t_eval <- np_linspace (fst tspan) (snd tspan) steps ;;
  sol <- solve_ivp (sir_rhs beta gamma) tspan y0_vec meth t_eval 1e-6%float 1e-9%float ;;
  if negb (sol_success sol) then Raise (RuntimeError (sol_message sol))
  else
    I_vals <- mat_row (sol_y sol) 1 ;;
    I_peak <- np_max I_vals ;;
    i_peak <- np_argmax I_vals ;;
    t_peak <- py_index (sol_t sol) i_peak ;;
    let metrics :=
      [ ("I_peak", VFloat I_peak);
        ("t_peak", VFloat t_peak);
        ("summary", VStr ("Peak infection " ++ format_fixed 4 I_peak
                          ++ " at t ≈ " ++ format_fixed 2 t_peak)) ] in
    Ok (sol_t sol, sol_y sol, metrics).

(** *** models/lotka_volterra.py *)

Definition lv_rhs (alpha beta delta gamma : float) : rhs_fun := fun _ y =>
  match y with
  | [x; y_pred] =>
      Ok [ (alpha * x - beta * x * y_pred)%float;
           (delta * x * y_pred - gamma * y_pred)%float ]
  | _ => Raise (ValueError "not enough values to unpack")
  end.

(** [a.mean()] over one row: numpy's pairwise sum over the count. *)
Definition row_mean (l : list float) : float :=
  (np_pairwise_sum l / Z2float (zlen l))%float.

Definition simulate_lotka_volterra (parameters y0 : params) (tspan : tspan_t)
    (steps : Z) (meth : method) : result solver_output :=
  let alpha := dict_get "alpha" 1.0%float parameters in
  let beta := dict_get "beta" 0.1%float parameters in
  let delta := dict_get "delta" 0.075%float parameters in
  let gamma := dict_get "gamma" 1.5%float parameters in
  let x0 := dict_get "x" 10.0%float y0 in
  let y0_val := dict_get "y" 5.0%float y0 in
  let y0_vec := [x0; y0_val] in
  t_eval <- np_linspace (fst tspan) (snd tspan) steps ;;
  sol <- solve_ivp (lv_rhs alpha beta delta gamma) tspan y0_vec meth t_eval
           1e-6%float 1e-9%float ;;
  if negb (sol_success sol) then Raise (RuntimeError (sol_message sol))
  else
    x_vals <- mat_row (sol_y sol) 0 ;;
    y_vals <- mat_row (sol_y sol) 1 ;;
    x_max <- np_max x_vals ;;
    x_min <- np_min x_vals ;;
    y_max <- np_max y_vals ;;
    y_min <- np_min y_vals ;;
    let x_mean := row_mean x_vals in
    let y_mean := row_mean y_vals in
    let metrics :=
      [ ("x_max", VFloat x_max); ("x_min", VFloat x_min); ("x_mean", VFloat x_mean);
        ("y_max", VFloat y_max); ("y_min", VFloat y_min); ("y_mean", VFloat y_mean);
        ("summary", VStr ("Prey: " ++ format_fixed 2 x_min ++ "-" ++ format_fixed 2 x_max
                          ++ " (avg " ++ format_fixed 2 x_mean ++ "), Predator: "
                          ++ format_fixed 2 y_min ++ "-" ++ format_fixed 2 y_max
                          ++ " (avg " ++ format_fixed 2 y_mean ++ ")")) ] in
    Ok (sol_t sol, sol_y sol, metrics).

(** *** models/logistic.py *)

Definition logistic_rhs (r K : float) : rhs_fun := fun _ y =>
  match y with
  | P :: _ => Ok [ (r * P * (1 - P / K))%float ]
  | [] => Raise (IndexError "index 0 is out of bounds")
  end.

Definition simulate_logistic (parameters y0 : params) (tspan : tspan_t)
    (steps : Z) (meth : method) : result solver_output :=
  let r := dict_get "r" 0.5%float parameters in
  let K := dict_get "K" 100.0%float parameters in
  let P0 := dict_get "P" 10.0%float y0 in
  let y0_vec := [P0] in
  t_eval <- np_linspace (fst tspan) (snd tspan) steps ;;
  sol <- solve_ivp (logistic_rhs r K) tspan y0_vec meth t_eval 1e-6%float 1e-9%float ;;
  if negb (sol_success sol) then Raise (RuntimeError (sol_message sol))
  else
    P_vals <- mat_row (sol_y sol) 0 ;;
    P_initial <- py_index P_vals 0 ;;
    P_final <- py_index P_vals (-1) ;;
    P_max <- np_max P_vals ;;
    let halfway_point := (K * 0.5)%float in
    idx_halfway <- np_argmin (map (fun p => abs (p - halfway_point)%float) P_vals) ;;
    t_halfway <- py_index (sol_t sol) idx_halfway ;;
    let ninety_percent := (K * 0.9)%float in
    idx_ninety <- np_argmin (map (fun p => abs (p - ninety_percent)%float) P_vals) ;;
    t_ninety <- py_index (sol_t sol) idx_ninety ;;
    let metrics :=
      [ ("P_initial", VFloat P_initial); ("P_final", VFloat P_final);
        ("P_max", VFloat P_max); ("K", VFloat K);
        ("t_halfway", VFloat t_halfway); ("t_ninety", VFloat t_ninety);
        ("summary", VStr ("Population grows from " ++ format_fixed 2 P_initial
                          ++ " to " ++ format_fixed 2 P_final
                          ++ " (K=" ++ format_fixed 2 K ++ "), reaching 90% at t â‰ˆ "
                          ++ format_fixed 2 t_ninety)) ] in
    Ok (sol_t sol, sol_y sol, metrics).
(** *** models/projectile.py *)

Definition projectile_rhs (g : float) : rhs_fun := fun _ y =>
  match y with
  | [x; y_pos; vx; vy] => Ok [ vx; vy; 0.0%float; (- g)%float ]
  | _ => Raise (ValueError "not enough values to unpack")
  end.

(** A velocity component of the initial state: the supplied value when
    the key is present and the value is not zero, the computed one
    otherwise. *)
Definition initial_velocity (key : string) (calc : float) (y0 : params) : float :=
  match dict_lookup key y0 with
  | Some v => if negb (v =? 0)%float then v else calc
  | None => calc
  end.

Definition projectile_y0_vec (parameters y0 : params) : list float :=
  let v0 := dict_get "v0" 20.0%float parameters in
  let angle_deg := dict_get "angle" 45.0%float parameters in
  let angle_rad := np_deg2rad angle_deg in
  let vx0_calc := (v0 * np_cos angle_rad)%float in
  let vy0_calc := (v0 * np_sin angle_rad)%float in
  let x0 := dict_get "x" 0.0%float y0 in
  let y0_val := dict_get "y" 0.0%float y0 in
  let vx0 := initial_velocity "vx" vx0_calc y0 in
  let vy0 := initial_velocity "vy" vy0_calc y0 in
  [x0; y0_val; vx0; vy0].

(** The loop that looks for the landing: every index [i >= 1] where the
    height is below the initial height and was not below it at [i - 1]
    overwrites the index found so far. *)
Definition descends_at (y_vals : list float) (initial_height : float) (i : Z)
  : bool :=
  (nth (Z.to_nat i) y_vals fzero <? initial_height)%float
  && (initial_height <=? nth (Z.to_nat (i - 1)) y_vals fzero)%float.

Definition landing_step (y_vals : list float) (initial_height : float)
    (landing_idx i : Z) : Z :=
  if descends_at y_vals initial_height i then i else landing_idx.

Definition find_landing_idx (y_vals : list float) (initial_height : float) : Z :=
  fold_left (landing_step y_vals initial_height)
            (py_range 1 (zlen y_vals)) (zlen y_vals - 1).

Definition speed (vx vy : float) : float := sqrt (vx * vx + vy * vy)%float.

Definition simulate_projectile (parameters y0 : params) (tspan : tspan_t)
    (steps : Z) (meth : method) : result solver_output :=
  let g := dict_get "g" 9.81%float parameters in
  let v0 := dict_get "v0" 20.0%float parameters in
  let angle_deg := dict_get "angle" 45.0%float parameters in
  let y0_val := dict_get "y" 0.0%float y0 in
  let y0_vec := projectile_y0_vec parameters y0 in
  t_eval <- np_linspace (fst tspan) (snd tspan) steps ;;
  sol <- solve_ivp (projectile_rhs g) tspan y0_vec meth t_eval 1e-6%float 1e-9%float ;;
  if negb (sol_success sol) then Raise (RuntimeError (sol_message sol))
  else
    x_vals <- mat_row (sol_y sol) 0 ;;
    y_vals <- mat_row (sol_y sol) 1 ;;
    vx_vals <- mat_row (sol_y sol) 2 ;;
    vy_vals <- mat_row (sol_y sol) 3 ;;
    y_max <- np_max y_vals ;;
    i_max <- np_argmax y_vals ;;
    t_max_height <- py_index (sol_t sol) i_max ;;
    let initial_height := y0_val in
    let landing_idx := find_landing_idx y_vals initial_height in
    range_val <- py_index x_vals landing_idx ;;
    t_landing <- py_index (sol_t sol) landing_idx ;;
    v_total <- vec_map2 speed vx_vals vy_vals ;;
    v_max <- np_max v_total ;;
    v_final <- py_index v_total landing_idx ;;
    let metrics :=
      [ ("max_height", VFloat y_max); ("t_max_height", VFloat t_max_height);
        ("range", VFloat range_val); ("t_landing", VFloat t_landing);
        ("v_initial", VFloat v0); ("v_final", VFloat v_final);
        ("v_max", VFloat v_max); ("angle_deg", VFloat angle_deg);
        ("summary", VStr ("Projectile reaches max height " ++ format_fixed 2 y_max
                          ++ "m at t ≈ " ++ format_fixed 2 t_max_height
                          ++ "s, lands at x=" ++ format_fixed 2 range_val
                          ++ "m (t ≈ " ++ format_fixed 2 t_landing ++ "s)")) ] in
    Ok (sol_t sol, sol_y sol, metrics).

(** *** models/monte_carlo.py

    [paths] is kept as the list of its columns [paths[:, i]], one per
    time index, each holding [n_paths] values. *)

(** [x ** y] on two Python floats: libm's [pow], and OverflowError when
    finite operands give an infinite result. *)
Definition float_pow (x y : float) : result float :=
  let r := py_pow x y in
  if is_finite x && is_finite y && is_infinity r
  then Raise (OverflowError "(34, 'Numerical result out of range')")
  else Ok r.

Definition gbm_update (mu sigma dt : float) (prev dW : list float)
  : result (list float) :=
  sigma2 <- float_pow sigma 2%float ;;
  vec_map2 mul prev
    (map (fun w => np_exp ((mu - 0.5 * sigma2) * dt + sigma * w)%float) dW).

(** The body of [for i in range(1, steps)], run [k] times from column
    [prev]: draws the increments, appends the next column. *)
Fixpoint gbm_loop (k : nat) (mu sigma dt : float) (n_paths : Z)
    (prev : list float) (g : rng_state)
  : result (list (list float)) * rng_state :=
  match k with
  | O => (Ok [], g)
  | S k' =>
      match np_random_normal 0%float (sqrt dt) n_paths g with
      | (Raise e, g1) => (Raise e, g1)
      | (Ok dW, g1) =>
          match gbm_update mu sigma dt prev dW with
          | Raise e => (Raise e, g1)
          | Ok col =>
              match gbm_loop k' mu sigma dt n_paths col g1 with
              | (Raise e, g2) => (Raise e, g2)
              | (Ok cols, g2) => (Ok (col :: cols), g2)
              end
          end
      end
  end.

(** [np.mean(paths[:, -1] > S0)]: the fraction of [True]; the sum of
    zeros and ones is exact in any order. *)
Definition frac_above (S0 : float) (col : list float) : float :=
  np_mean (map (fun x => if (S0 <? x)%float then 1%float else 0%float) col).

(** [(final - S0) / S0 * 100] *)
Definition pct_return (final S0 : float) : result float :=
  q <- py_div (final - S0)%float S0 ;; Ok (q * 100)%float.

Definition mc_statistics (n_paths : Z) (mu sigma S0 : float)
    (t : list float) (paths : list (list float)) : result solver_output :=
  let S_mean := map np_mean paths in
  let S_median := map np_median paths in
  let S_std := map np_std paths in
  S_min <- mapM np_min paths ;;
  S_max <- mapM np_max paths ;;
  let S_p5 := map (fun c => np_percentile c 5%float) paths in
  let S_p25 := map (fun c => np_percentile c 25%float) paths in
  let S_p75 := map (fun c => np_percentile c 75%float) paths in
  let S_p95 := map (fun c => np_percentile c 95%float) paths in
  final_mean <- py_index S_mean (-1) ;;
  final_median <- py_index S_median (-1) ;;
  final_std <- py_index S_std (-1) ;;
  final_min <- py_index S_min (-1) ;;
  final_max <- py_index S_max (-1) ;;
  expected_return <- pct_return final_mean S0 ;;
  max_return <- pct_return final_max S0 ;;
  min_return <- pct_return final_min S0 ;;
  last_col <- py_index paths (-1) ;;
  let prob_profit := (frac_above S0 last_col * 100)%float in
  let metrics : metrics_dict :=
    [ ("S_initial", VFloat S0);
      ("S_final_mean", VFloat final_mean);
      ("S_final_median", VFloat final_median);
      ("S_final_std", VFloat final_std);
      ("S_final_min", VFloat final_min);
      ("S_final_max", VFloat final_max);
      ("expected_return_pct", VFloat expected_return);
      ("max_return_pct", VFloat max_return);
      ("min_return_pct", VFloat min_return);
      ("prob_profit_pct", VFloat prob_profit);
      ("n_paths", VInt n_paths);
      ("mu", VFloat mu);
      ("sigma", VFloat sigma);
      ("summary", VStr ("Monte Carlo (" ++ str_of_int n_paths
                        ++ " paths): Mean final price " ++ format_fixed 2 final_mean
                        ++ " (return " ++ format_fixed 1 expected_return
                        ++ "%), probability of profit "
                        ++ format_fixed 1 prob_profit ++ "%")) ] in
  let Y := [S_mean] in
  let metrics :=
    dict_set "percentiles"
      (VDict [("p5", S_p5); ("p25", S_p25); ("p75", S_p75); ("p95", S_p95)])
      metrics in
  Ok (t, Y, metrics).

(** [dt = (tspan[1] - tspan[0]) / (steps - 1) if steps > 1 else 0.0] *)
Definition mc_dt (tspan : tspan_t) (steps : Z) : float :=
  if 1 <? steps
  then ((snd tspan - fst tspan) / Z2float (steps - 1))%float
  else 0.0%float.

(** Everything after the optional seeding, from generator state [g]. *)
Definition mc_simulate (n_paths : Z) (mu sigma S0 : float) (tspan : tspan_t)
    (steps : Z) (g : rng_state) : result solver_output * rng_state :=
  match np_linspace (fst tspan) (snd tspan) steps with
  | Raise e => (Raise e, g)
  | Ok t =>
      let dt := mc_dt tspan steps in
      if n_paths <? 0 then (Raise (ValueError "negative dimensions are not allowed"), g)
      else if steps =? 0 then (Raise (IndexError "index 0 is out of bounds"), g)
      else
        let col0 := repeat S0 (Z.to_nat n_paths) in
        match gbm_loop (Z.to_nat (steps - 1)) mu sigma dt n_paths col0 g with
        | (Raise e, g') => (Raise e, g')
        | (Ok cols, g') => (mc_statistics n_paths mu sigma S0 t (col0 :: cols), g')
        end
  end.

Definition simulate_monte_carlo (parameters y0 : params) (tspan : tspan_t)
    (steps : Z) (meth : method) (g : rng_state)
  : result solver_output * rng_state :=
  let mu := dict_get "mu" 0.1%float parameters in
  let sigma := dict_get "sigma" 0.2%float parameters in
  match (match dict_lookup "n_paths" parameters with
         | Some v => py_int v
         | None => Ok 100
         end) with
  | Raise e => (Raise e, g)
  | Ok n_paths =>
      let seed := dict_lookup "seed" parameters in
      let S0 := dict_get "S" 100.0%float y0 in
      match seed with
      | None => mc_simulate n_paths mu sigma S0 tspan steps g
      | Some sd =>
          match (s <- py_int sd ;; np_random_seed s) with
          | Raise e => (Raise e, g)
          | Ok g0 => mc_simulate n_paths mu sigma S0 tspan steps g0
          end
      end
  end.
End Solvers.

(** ** server.py: request and response shapes *)

Inductive domain : Type := epidemiology | physics | finance | custom.
Inductive model_type : Type := SIR | LotkaVolterra | Logistic | Projectile | MonteCarlo.

Definition domain_str (d : domain) : string :=
  match d with
  | epidemiology => "epidemiology"
  | physics => "physics"
  | finance => "finance"
  | custom => "custom"
  end.

Definition model_str (m : model_type) : string :=
  match m with
  | SIR => "SIR"
  | LotkaVolterra => "LotkaVolterra"
  | Logistic => "Logistic"
  | Projectile => "Projectile"
  | MonteCarlo => "MonteCarlo"
  end.

(** [spec.model_type.lower()] *)
Definition model_lower (m : model_type) : string :=
  match m with
  | SIR => "sir"
  | LotkaVolterra => "lotkavolterra"
  | Logistic => "logistic"
  | Projectile => "projectile"
  | MonteCarlo => "montecarlo"
  end.

Record TimeSpan : Type := mkTimeSpan {
  ts_start : float;
  ts_end : float;
  ts_steps : Z;
  preview_mode : bool
}.

Record SimulateModelInput : Type := mkInput {
  in_domain : domain;
  in_model_type : model_type;
  parameters : params;
  initial_conditions : params;
  time_span : TimeSpan;
  in_method : method;
  sensitivity : option params;
  tags : option (list string);
  return_data : bool;
  save_artifacts : bool
}.

(** The field validator of [TimeSpan] and the uniqueness of dict keys:
    what holds of every request object that reaches [simulate_model]. *)
Definition valid_input (spec : SimulateModelInput) : Prop :=
  2 <= ts_steps (time_span spec)
  /\ dict_wf (parameters spec)
  /\ dict_wf (initial_conditions spec).

Inductive artifact_kind : Type := plot | csv | json.

Record Artifact : Type := mkArtifact {
  kind : artifact_kind;
  path : string;
  sha256 : option string
}.

Inductive status_t : Type := success | error.

Record SimulateModelOutput : Type := mkOutput {
  status : status_t;
  message : string;
  summary : option string;
  artifacts : list Artifact;
  metrics : dict float;
  columns : option (list string);
  data : option (list (dict float))
}.

Record CallToolResult : Type := mkCallToolResult {
  content : string;
  isError : bool;
  meta : option SimulateModelOutput
}.

(** How a call of the tool ends: with a result object, or with an
    exception that leaves [simulate_model]. *)
Inductive outcome : Type :=
  | Returned (r : CallToolResult)
  | Escaped (e : exn).

(** A cell of a CSV row and the contents of the plot, as handed to the
    writers. *)
Inductive csv_cell : Type := CStr (s : string) | CNum (f : float).
Definition csv_rows := list (list csv_cell).
Definition plot_curves : Type := list float * list (string * list float).

(** The host of the server: schema file, output directory, serializer and
    the per-request clock and uuid. *)
Class Host : Type := {
  Schema : Type;
  INPUT_SCHEMA : option Schema;
  json_validate : Schema -> SimulateModelInput -> option exn;
  fs_state : Type;
  OUT_DIR : string;
  fs_write_csv : string -> csv_rows -> fs_state -> result unit * fs_state;
  fs_savefig : string -> plot_curves -> fs_state -> result unit * fs_state;
  model_dump_json : SimulateModelOutput -> string
}.

(** [datetime.utcnow()] formatted and [uuid4().hex[:8]] of one request. *)
Record Ambient : Type := mkAmbient {
  utc_stamp : string;
  uuid_hex8 : string
}.

(** ** server.py: the tool *)

(** [enumerate(l)] *)
Definition enumerate {A : Type} (l : list A) : list (Z * A) :=
  combine (zrange 0 (List.length l)) l.

(** A loop that appends one item per index inside a [try]: the items built
    before the first exception, and that exception. *)
Fixpoint rows_until {A : Type} (f : Z -> result A) (idx : list Z)
  : list A * option exn :=
  match idx with
  | [] => ([], None)
  | i :: rest =>
      match f i with
      | Raise e => ([], Some e)
      | Ok a => let (l, err) := rows_until f rest in (a :: l, err)
      end
  end.

Section Server.
Context {ext : Externals} {host : Host}.

Record World : Type := mkWorld {
  w_rng : rng_state;
  w_fs : fs_state
}.

Definition solver_fn : Type :=
  params -> params -> tspan_t -> Z -> method -> rng_state ->
  result solver_output * rng_state.

(** The four ODE solvers do not touch the random generator. *)
Definition ode_solver
    (f : params -> params -> tspan_t -> Z -> method -> result solver_output)
  : solver_fn :=
  fun p y0 tspan steps meth g => (f p y0 tspan steps meth, g).

Definition SOLVERS (key : domain * model_type) : option solver_fn :=
  match key with
  | (epidemiology, SIR) => Some (ode_solver simulate_sir)
  | (epidemiology, LotkaVolterra) => Some (ode_solver simulate_lotka_volterra)
  | (epidemiology, Logistic) => Some (ode_solver simulate_logistic)
  | (physics, Projectile) => Some (ode_solver simulate_projectile)
  | (finance, MonteCarlo) => Some simulate_monte_carlo
  | _ => None
  end.

(** *** write_csv and write_plot *)

Definition csv_row (t : list float) (Y : matrix) (i : Z) : result (list csv_cell) :=
  ti <- py_index t i ;;
  col <- mat_col Y i ;;
  Ok (CNum ti :: map CNum col).

Definition write_csv (t : list float) (Y : matrix) (headers : list string)
    (run_id : string) (fs : fs_state) : result string * fs_state :=
  let csv_path := OUT_DIR ++ "/" ++ run_id ++ ".csv" in
  let (rows, err) := rows_until (csv_row t Y) (py_range 0 (zlen t)) in
  match fs_write_csv csv_path ((CStr "t" :: map CStr headers) :: rows) fs with
  | (Raise e, fs') => (Raise e, fs')
  | (Ok _, fs') =>
      match err with
      | Some e => (Raise e, fs')
      | None => (Ok csv_path, fs')
      end
  end.

Definition plot_curve (t : list float) (Y : matrix) (c : Z * string)
  : result (string * list float) :=
  row <- mat_row Y (fst c) ;;
  if (List.length t =? List.length row)%nat then Ok (snd c, row)
  else Raise (ValueError "x and y must have same first dimension").

Definition write_plot (t : list float) (Y : matrix) (headers : list string)
    (run_id : string) (fs : fs_state) : result string * fs_state :=
  match mapM (plot_curve t Y) (enumerate headers) with
  | Raise e => (Raise e, fs)
  | Ok curves =>
      let png_path := OUT_DIR ++ "/" ++ run_id ++ ".png" in
      match fs_savefig png_path (t, curves) fs with
      | (Raise e, fs') => (Raise e, fs')
      | (Ok _, fs') => (Ok png_path, fs')
      end
  end.

(** The [try] around both writers: any exception leaves [artifacts]
    empty. *)
Definition save_artifacts_step (t : list float) (Y : matrix)
    (headers : list string) (run_id : string) (fs : fs_state)
  : list Artifact * fs_state :=
  match write_csv t Y headers run_id fs with
  | (Raise _, fs1) => ([], fs1)
  | (Ok csv_path, fs1) =>
      match write_plot t Y headers run_id fs1 with
      | (Raise _, fs2) => ([], fs2)
      | (Ok png_path, fs2) =>
          ([ mkArtifact csv csv_path None; mkArtifact plot png_path None ], fs2)
      end
  end.

(** *** The rows of [data] *)

Definition data_point (t : list float) (Y : matrix) (headers : list string)
    (i : Z) : result (dict float) :=
  ti <- py_index t i ;;
  fold_left
    (fun acc c =>
       point <- acc ;;
       v <- mat_at Y (fst c) i ;;
       Ok (dict_set (snd c) v point))
    (enumerate headers) (Ok [("t", ti)]).

Definition build_data_points (t : list float) (Y : matrix) (headers : list string)
  : list (dict float) :=
  fst (rows_until (data_point t Y headers) (py_range 0 (zlen t))).

(** *** The metrics of the response *)

(** [float(v)] *)
Definition py_float (v : pyval) : result float :=
  match v with
  | VFloat f => Ok f
  | VInt n => py_float_of_int n
  | VStr s => float_of_str s
  | VDict _ =>
      Raise (TypeError "float() argument must be a string or a real number, not 'dict'")
  end.

(** [{k: float(v) for k, v in metrics.items() if k != "summary"}] *)
Fixpoint metrics_view (m : metrics_dict) : result (dict float) :=
  match m with
  | [] => Ok []
  | (k, v) :: m' =>
      if String.eqb k "summary" then metrics_view m'
      else f <- py_float v ;; rest <- metrics_view m' ;; Ok ((k, f) :: rest)
  end.

(** [metrics.get("summary", "")], which the output model accepts only as
    a string. *)
Definition summary_field (m : metrics_dict) : result string :=
  match dict_lookup "summary" m with
  | None => Ok ""
  | Some (VStr s) => Ok s
  | Some _ => Raise (ValidationError "summary: Input should be a valid string")
  end.

(** *** simulate_model *)

Definition error_result (text : string) : CallToolResult :=
  {| content := text; isError := true; meta := None |}.

Definition actual_steps (ts : TimeSpan) : Z :=
  if preview_mode ts then Z.min (ts_steps ts) 100 else ts_steps ts.

Definition run_id_of (amb : Ambient) (spec : SimulateModelInput) : string :=
  model_lower (in_model_type spec) ++ "_" ++ utc_stamp amb ++ "_" ++ uuid_hex8 amb.

(** [SOLVERS[key](parameters=..., y0=..., tspan=..., steps=actual_steps,
    method=...)] *)
Definition call_solver (solver : solver_fn) (spec : SimulateModelInput)
    (g : rng_state) : result solver_output * rng_state :=
  solver (parameters spec) (initial_conditions spec)
         (ts_start (time_span spec), ts_end (time_span spec))
         (actual_steps (time_span spec)) (in_method spec) g.

(** From the solver's return to the end of the function. *)
Definition shape_response (amb : Ambient) (spec : SimulateModelInput)
    (out : solver_output) (fs : fs_state) : outcome * fs_state :=
  let '(t, Y, metrics) := out in
  let headers := dict_keys (initial_conditions spec) in
  let (artifacts, fs') :=
    if save_artifacts spec
    then save_artifacts_step t Y headers (run_id_of amb spec) fs
    else ([], fs) in
  let data_points :=
    if return_data spec then Some (build_data_points t Y headers) else None in
  match (mv <- metrics_view metrics ;; s <- summary_field metrics ;; Ok (mv, s)) with
  | Raise e => (Escaped e, fs')
  | Ok (mv, summary) =>
      let output :=
        {| status := success;
           message := "Simulation completed";
           summary := Some summary;
           artifacts := artifacts;
           metrics := mv;
           columns := Some ("t" :: headers);
           data := data_points |} in
      (Returned {| content := model_dump_json output;
                   isError := false;
                   meta := Some output |}, fs')
  end.

(** The optional JSON Schema pass: the exception [json_validate]
    raises, if a schema file was found and rejects the request. *)
Definition schema_gate (spec : SimulateModelInput) : option exn :=
  match INPUT_SCHEMA with
  | Some sch => json_validate sch spec
  | None => None
  end.

Definition simulate_model (amb : Ambient) (spec : SimulateModelInput)
    (w : World) : outcome * World :=
  match schema_gate spec with
  | Some (JSONSchemaError m) =>
      (Returned (error_result ("JSON schema validation failed: " ++ m)), w)
  | Some e => (Escaped e, w)
  | None =>
      let key := (in_domain spec, in_model_type spec) in
      match SOLVERS key with
      | None =>
          (Returned (error_result
             ("No solver registered for domain=" ++ domain_str (in_domain spec)
              ++ ", model_type=" ++ model_str (in_model_type spec))), w)
      | Some solver =>
          match call_solver solver spec (w_rng w) with
          | (Raise e, g') =>
              (Returned (error_result
                 ("Solver error: " ++ exn_name e ++ ": " ++ exn_str e)),
               mkWorld g' (w_fs w))
          | (Ok out, g') =>
              let (res, fs') := shape_response amb spec out (w_fs w) in
              (res, mkWorld g' fs')
          end
      end
  end.
End Server.


(** The two zeros of binary64. *)
Definition is_pm_zero (x : float) : Prop := x = 0%float \/ x = (-0)%float.

(** The state variables of each model, in the order of the state vector
    its solver builds ([y0_vec], the rows of [Y]). *)
Definition state_variables (m : model_type) : list string :=
  match m with
  | SIR => ["S"; "I"; "R"]
  | LotkaVolterra => ["x"; "y"]
  | Logistic => ["P"]
  | Projectile => ["x"; "y"; "vx"; "vy"]
  | MonteCarlo => ["S"]
  end.

Definition with_save_artifacts (b : bool) (spec : SimulateModelInput)
  : SimulateModelInput :=
  {| in_domain := in_domain spec;
     in_model_type := in_model_type spec;
     parameters := parameters spec;
     initial_conditions := initial_conditions spec;
     time_span := time_span spec;
     in_method := in_method spec;
     sensitivity := sensitivity spec;
     tags := tags spec;
     return_data := return_data spec;
     save_artifacts := b |}.

(** Every draw of [n] normal variates of scale [scale] succeeds, has [n]
    values and all of them are finite. *)
Definition finite_draws {ext : Externals} (scale : float) (n : Z) : Prop :=
  forall g, exists dW g',
    np_random_normal 0%float scale n g = (Ok dW, g')
    /\ List.length dW = Z.to_nat n
    /\ Forall (fun w => is_finite w = true) dW.


(** ** Reference instances of the two interfaces

    A deterministic stand-in for the numeric libraries (the integrator
    holds the initial state over the evaluation grid, the generator counts
    its draws and returns the location parameter) and two hosts without a
    schema file: one that records the paths written, one whose output
    directory refuses every write. *)

Module Reference.

Definition hold_ivp (f : rhs_fun) (span : float * float) (y0 : list float)
    (m : method) (t_eval : list float) (rtol atol : float) : result OdeResult :=
  Ok {| sol_success := true;
        sol_message := "The solver successfully reached the end of the integration interval.";
        sol_t := t_eval;
        sol_y := map (fun v => map (fun _ => v) t_eval) y0 |}.

Definition counter_seed (s : Z) : result Z :=
  if (0 <=? s) && (s <? 2 ^ 32) then Ok s
  else Raise (ValueError "Seed must be between 0 and 2**32 - 1").

Definition counter_normal (loc scale : float) (n : Z) (g : Z)
  : result (list float) * Z :=
  if (scale <? 0)%float then (Raise (ValueError "scale < 0"), g)
  else if n <? 0 then (Raise (ValueError "negative dimensions are not allowed"), g)
  else (Ok (repeat loc (Z.to_nat n)), g + n).

Definition externals : Externals :=
  {| np_exp := fun x => (1 + x)%float;
     np_cos := fun x => (1 - x * x / 2)%float;
     np_sin := fun x => x;
     py_pow := fun x _ => (x * x)%float;
     np_median := np_mean;
     np_std := fun _ => 0%float;
     np_percentile := fun l _ => hd 0%float l;
     np_pairwise_sum := np_sum;
     rng_state := Z;
     np_random_seed := counter_seed;
     np_random_normal := counter_normal;
     solve_ivp := hold_ivp;
     format_fixed := fun _ _ => "#";
     str_of_int := fun _ => "#";
     float_of_str := fun _ => Raise (ValueError "could not convert string to float") |}.

Definition recording_host : Host :=
  {| Schema := unit;
     INPUT_SCHEMA := None;
     json_validate := fun _ _ => None;
     fs_state := list string;
     OUT_DIR := "storage";
     fs_write_csv := fun p _ fs => (Ok tt, p :: fs);
     fs_savefig := fun p _ fs => (Ok tt, p :: fs);
     model_dump_json := fun o => match status o with
                                 | success => "success"
                                 | error => "error"
                                 end |}.


Definition ambient : Ambient :=
  {| utc_stamp := "20240101T000000"; uuid_hex8 := "0a1b2c3d" |}.

(** A request with the defaults of [SimulateModelInput]. *)
Definition request (d : domain) (m : model_type) (p y0 : params)
    (ts : TimeSpan) : SimulateModelInput :=
  {| in_domain := d; in_model_type := m;
     parameters := p; initial_conditions := y0;
     time_span := ts; in_method := RK45;
     sensitivity := None; tags := None;
     return_data := true; save_artifacts := false |}.

Definition sir_swapped : SimulateModelInput :=
  request epidemiology SIR
    [("beta", 0.3%float); ("gamma", 0.1%float)]
    [("I", 0.01%float); ("S", 0.99%float)]
    (mkTimeSpan 0%float 10%float 3 false).

Definition mc_flat : SimulateModelInput :=
  request finance MonteCarlo
    [("mu", 0%float); ("sigma", 0%float); ("n_paths", 10%float); ("seed", 42%float)]
    [("S", 100%float)]
    (mkTimeSpan 0%float 1%float 5 false).

(** Projections used to name the parts of a concrete run. *)
Definition solver_output_of (r : result solver_output) : solver_output :=
  match r with
  | Ok out => out
  | Raise _ => ([], [], [])
  end.

Definition result_of (o : outcome) : CallToolResult :=
  match o with
  | Returned r => r
  | Escaped e => {| content := exn_str e; isError := true; meta := None |}
  end.

Definition output_of (r : CallToolResult) : SimulateModelOutput :=
  match meta r with
  | Some o => o
  | None => {| status := error; message := content r; summary := None;
               artifacts := []; metrics := []; columns := None; data := None |}
  end.

End Reference.

(** ** Further definitions used by the properties below *)

(** [TimeSpan._min_steps], the field validator of [steps]. *)
Definition _min_steps (v : Z) : result Z :=
  if v <? 2 then Raise (ValueError "steps must be >= 2") else Ok v.

(** The domain under which [SOLVERS] lists a model. *)
Definition home_domain (m : model_type) : domain :=
  match m with
  | SIR | LotkaVolterra | Logistic => epidemiology
  | Projectile => physics
  | MonteCarlo => finance
  end.

(** A solver output that fits the headers: one state row per header, each
    as long as the time grid. *)
Definition well_shaped (t : list float) (Y : matrix) (headers : list string) : Prop :=
  List.length Y = List.length headers
  /\ Forall (fun row => List.length row = List.length t) Y.

(** Column [i] of a matrix and the table of its columns against time. *)
Definition column (Y : matrix) (i : nat) : list float :=
  map (fun row => nth i row fzero) Y.

Definition csv_table (t : list float) (Y : matrix) : csv_rows :=
  map (fun i => CNum (nth i t fzero) :: map CNum (column Y i))
      (seq 0 (List.length t)).

Definition data_table (t : list float) (Y : matrix) (headers : list string)
  : list (dict float) :=
  map (fun i => ("t", nth i t fzero) :: combine headers (column Y i))
      (seq 0 (List.length t)).

(** The parameter names each solver reads, the defaults it falls back
    to, and the defaults of its initial conditions (the projectile's
    velocities and the Monte Carlo seed have none). *)
Definition parameter_names (m : model_type) : list string :=
  match m with
  | SIR => ["beta"; "gamma"]
  | LotkaVolterra => ["alpha"; "beta"; "delta"; "gamma"]
  | Logistic => ["r"; "K"]
  | Projectile => ["g"; "v0"; "angle"]
  | MonteCarlo => ["mu"; "sigma"; "n_paths"; "seed"]
  end.

Definition default_parameters (m : model_type) : params :=
  match m with
  | SIR => [("beta", 0.3%float); ("gamma", 0.1%float)]
  | LotkaVolterra =>
      [("alpha", 1.0%float); ("beta", 0.1%float); ("delta", 0.075%float);
       ("gamma", 1.5%float)]
  | Logistic => [("r", 0.5%float); ("K", 100.0%float)]
  | Projectile => [("g", 9.81%float); ("v0", 20.0%float); ("angle", 45.0%float)]
  | MonteCarlo => [("mu", 0.1%float); ("sigma", 0.2%float); ("n_paths", 100%float)]
  end.

Definition default_initial (m : model_type) : params :=
  match m with
  | SIR => [("S", 0.99%float); ("I", 0.01%float); ("R", 0.0%float)]
  | LotkaVolterra => [("x", 10.0%float); ("y", 5.0%float)]
  | Logistic => [("P", 10.0%float)]
  | Projectile => [("x", 0.0%float); ("y", 0.0%float)]
  | MonteCarlo => [("S", 100.0%float)]
  end.

(** Two dicts that hold the same entry, or none, under each of [keys]. *)
Definition agree_on (keys : list string) (d d' : params) : Prop :=
  forall k, In k keys -> dict_lookup k d = dict_lookup k d'.

(** The initial-value problem each ODE solver hands to [solve_ivp]: its
    right-hand side and its initial state vector [y0_vec]. *)
Definition ode_problem {ext : Externals} (m : model_type) (p y0 : params)
  : option (rhs_fun * list float) :=
  match m with
  | SIR =>
      Some (sir_rhs (dict_get "beta" 0.3%float p) (dict_get "gamma" 0.1%float p),
            [dict_get "S" 0.99%float y0; dict_get "I" 0.01%float y0;
             dict_get "R" 0.0%float y0])
  | LotkaVolterra =>
      Some (lv_rhs (dict_get "alpha" 1.0%float p) (dict_get "beta" 0.1%float p)
                   (dict_get "delta" 0.075%float p) (dict_get "gamma" 1.5%float p),
            [dict_get "x" 10.0%float y0; dict_get "y" 5.0%float y0])
  | Logistic =>
      Some (logistic_rhs (dict_get "r" 0.5%float p) (dict_get "K" 100.0%float p),
            [dict_get "P" 10.0%float y0])
  | Projectile =>
      Some (projectile_rhs (dict_get "g" 9.81%float p), projectile_y0_vec p y0)
  | MonteCarlo => None
  end.

(** What of an outcome does not name a file: the response without its
    artifact list and without the JSON text that repeats it. *)
Definition numeric_view (o : outcome) : outcome :=
  match o with
  | Returned r =>
      match meta r with
      | Some out =>
          Returned {| content := "";
                      isError := isError r;
                      meta := Some {| status := status out;
                                      message := message out;
                                      summary := summary out;
                                      artifacts := [];
                                      metrics := metrics out;
                                      columns := columns out;
                                      data := data out |} |}
      | None => Returned r
      end
  | Escaped e => Escaped e
  end.

(** An explicit Euler integrator over the evaluation grid: a stand-in that
    does use the right-hand side, so that trajectories move. *)
Fixpoint euler_states (f : rhs_fun) (t_prev : float) (y_prev : list float)
    (ts : list float) : result (list (list float)) :=
  match ts with
  | [] => Ok []
  | t :: ts' =>
      dy <- f t_prev y_prev ;;
      let y := map (fun c => (fst c + (t - t_prev) * snd c)%float)
                   (combine y_prev dy) in
      rest <- euler_states f t y ts' ;;
      Ok (y :: rest)
  end.

Definition euler_ivp (f : rhs_fun) (span : float * float) (y0 : list float)
    (m : method) (t_eval : list float) (rtol atol : float) : result OdeResult :=
  states <- match t_eval with
            | [] => Ok []
            | t0 :: ts => rest <- euler_states f t0 y0 ts ;; Ok (y0 :: rest)
            end ;;
  Ok {| sol_success := true;
        sol_message := "The solver successfully reached the end of the integration interval.";
        sol_t := t_eval;
        sol_y := map (fun k => map (fun st => nth k st fzero) states)
                     (seq 0 (List.length y0)) |}.

Definition euler_externals : Externals :=
  {| np_exp := np_exp (Externals := Reference.externals);
     np_cos := np_cos (Externals := Reference.externals);
     np_sin := np_sin (Externals := Reference.externals);
     py_pow := py_pow (Externals := Reference.externals);
     np_median := np_mean;
     np_std := fun _ => 0%float;
     np_percentile := fun l _ => hd 0%float l;
     np_pairwise_sum := np_sum;
     rng_state := Z;
     np_random_seed := Reference.counter_seed;
     np_random_normal := Reference.counter_normal;
     solve_ivp := euler_ivp;
     format_fixed := fun _ _ => "#";
     str_of_int := fun _ => "#";
     float_of_str := fun _ => Raise (ValueError "could not convert string to float") |}.

(** A generator whose draws depend on its state: every draw of a batch is
    the state taken as a number, and the state moves on by one. *)
Definition state_normal (loc scale : float) (n : Z) (g : Z)
  : result (list float) * Z :=
  if n <? 0 then (Raise (ValueError "negative dimensions are not allowed"), g)
  else (Ok (repeat (loc + scale * Z2float g)%float (Z.to_nat n)), g + 1).

Definition stateful_externals : Externals :=
  {| np_exp := np_exp (Externals := Reference.externals);
     np_cos := np_cos (Externals := Reference.externals);
     np_sin := np_sin (Externals := Reference.externals);
     py_pow := py_pow (Externals := Reference.externals);
     np_median := np_mean;
     np_std := fun _ => 0%float;
     np_percentile := fun l _ => hd 0%float l;
     np_pairwise_sum := np_sum;
     rng_state := Z;
     np_random_seed := Reference.counter_seed;
     np_random_normal := state_normal;
     solve_ivp := Reference.hold_ivp;
     format_fixed := fun _ _ => "#";
     str_of_int := fun _ => "#";
     float_of_str := fun _ => Raise (ValueError "could not convert string to float") |}.

(** An integrator that always reports failure, and the externals built
    on it. *)
Definition failing_ivp (f : rhs_fun) (span : float * float) (y0 : list float)
    (m : method) (t_eval : list float) (rtol atol : float) : result OdeResult :=
  Ok {| sol_success := false;
        sol_message := "Required step size is less than spacing between numbers.";
        sol_t := [];
        sol_y := [] |}.

Definition failing_externals : Externals :=
  {| np_exp := np_exp (Externals := Reference.externals);
     np_cos := np_cos (Externals := Reference.externals);
     np_sin := np_sin (Externals := Reference.externals);
     py_pow := py_pow (Externals := Reference.externals);
     np_median := np_mean;
     np_std := fun _ => 0%float;
     np_percentile := fun l _ => hd 0%float l;
     np_pairwise_sum := np_sum;
     rng_state := Z;
     np_random_seed := Reference.counter_seed;
     np_random_normal := Reference.counter_normal;
     solve_ivp := failing_ivp;
     format_fixed := fun _ _ => "#";
     str_of_int := fun _ => "#";
     float_of_str := fun _ => Raise (ValueError "could not convert string to float") |}.

(** * Properties *)

(** ** Binary64 arithmetic around zero

    Read off the specification of the primitive operations: a finite
    float times a zero is a zero, a zero added to a finite float leaves
    it equal, and a quotient is finite only if its numerator is. *)

Lemma is_finite_SF x : is_finite x = true ->
  (exists s, Prim2SF x = S754_zero s) \/ (exists s m e, Prim2SF x = S754_finite s m e).
Proof.
  unfold is_finite, is_nan, is_infinity.
  rewrite !eqb_spec, abs_spec.
  destruct (Prim2SF x) eqn:E; simpl.
  - intros _. left. eauto.
  - destruct s; cbn; discriminate.
  - cbn. discriminate.
  - intros _. right. eauto.
Qed.

Lemma SF_zero_pm x s : Prim2SF x = S754_zero s -> is_pm_zero x.
Proof.
  intros E. rewrite <- (SF2Prim_Prim2SF x), E.
  destruct s; [right | left]; reflexivity.
Qed.

Lemma pm_zero_SF z : is_pm_zero z -> exists s, Prim2SF z = S754_zero s.
Proof. intros [-> | ->]; eexists; reflexivity. Qed.

Lemma mul_zero_finite z x :
  is_pm_zero z -> is_finite x = true -> is_pm_zero (z * x)%float.
Proof.
  intros Hz Hx.
  destruct (pm_zero_SF z Hz) as [sz Ez].
  destruct (is_finite_SF x Hx) as [[s E] | (s & m & e & E)];
    apply SF_zero_pm with (s := xorb sz s);
    rewrite mul_spec, Ez, E; reflexivity.
Qed.

Lemma pm_zero_add z1 z2 : is_pm_zero z1 -> is_pm_zero z2 -> is_pm_zero (z1 + z2)%float.
Proof.
  intros [-> | ->] [-> | ->]; vm_compute; auto.
Qed.






(** ** Lists, ranges and the error monad *)


Lemma zrange_snoc lo n : zrange lo (S n) = (zrange lo n ++ [lo + Z.of_nat n])%list.
Proof.
  revert lo; induction n as [|n IH]; intros lo.
  - simpl. now rewrite Z.add_0_r.
  - change (zrange lo (S (S n))) with (lo :: zrange (lo + 1) (S n)).
    rewrite IH, Nat2Z.inj_succ.
    change (zrange lo (S n)) with (lo :: zrange (lo + 1) n).
    rewrite <- app_comm_cons. do 3 f_equal. lia.
Qed.

Lemma zrange_In lo n i : In i (zrange lo n) <-> lo <= i < lo + Z.of_nat n.
Proof.
  revert lo; induction n as [|n IH]; intros lo.
  - simpl. lia.
  - change (zrange lo (S n)) with (lo :: zrange (lo + 1) n).
    simpl In. rewrite IH. lia.
Qed.


Lemma bind_Ok {A B : Type} (m : result A) (k : A -> result B) (b : B) :
  bind m k = Ok b -> exists a, m = Ok a /\ k a = Ok b.
Proof. destruct m as [a|e]; simpl; [eauto | discriminate]. Qed.

Lemma py_index_nth {A : Type} (l : list A) (i : Z) (d : A) :
  0 <= i < zlen l -> py_index l i = Ok (nth (Z.to_nat i) l d).
Proof.
  intros Hi. unfold py_index, zlen in *.
  destruct (i <? 0) eqn:E; [apply Z.ltb_lt in E; lia|]. rewrite E.
  destruct (nth_error l (Z.to_nat i)) as [a|] eqn:En.
  - now rewrite (nth_error_nth _ _ d En).
  - apply nth_error_None in En.
    assert (Z.to_nat i < List.length l)%nat by (apply Nat2Z.inj_lt; rewrite Z2Nat.id; lia).
    lia.
Qed.

Lemma py_index_last {A : Type} (l : list A) (x : A) :
  py_index (l ++ [x])%list (-1) = Ok x.
Proof.
  unfold py_index, zlen. rewrite length_app. simpl List.length.
  replace (-1 <? 0) with true by reflexivity.
  replace (-1 + Z.of_nat (List.length l + 1)) with (Z.of_nat (List.length l)) by lia.
  destruct (Z.of_nat (List.length l) <? 0) eqn:E; [apply Z.ltb_lt in E; lia|].
  rewrite Nat2Z.id, nth_error_app2, Nat.sub_diag by lia. reflexivity.
Qed.

Lemma rows_until_sound {A : Type} (f : Z -> result A) (idx : list Z) (a : A) :
  In a (fst (rows_until f idx)) -> exists i, In i idx /\ f i = Ok a.
Proof.
  induction idx as [|i idx IH]; simpl; [contradiction|].
  destruct (f i) as [b|e] eqn:E; simpl; [|contradiction].
  destruct (rows_until f idx) as [l err]; simpl in *.
  intros [<- | Hin]; [eauto|].
  destruct (IH Hin) as (j & Hj & Ej). eauto.
Qed.

(** ** The registry and the shape of the response *)

Section Dispatch.
Context {ext : Externals} {host : Host}.

Lemma SOLVERS_miss d m :
  SOLVERS (d, m) = None <->
  (d, m) <> (epidemiology, SIR) /\ (d, m) <> (epidemiology, LotkaVolterra) /\
  (d, m) <> (epidemiology, Logistic) /\ (d, m) <> (physics, Projectile) /\
  (d, m) <> (finance, MonteCarlo).
Proof.
  destruct d, m; simpl; split; intros H;
    try discriminate; try reflexivity;
    try (repeat split; discriminate);
    try (exfalso; tauto).
Qed.

(** C6.  A request whose (domain, model) pair has no entry in [SOLVERS],
    once past the optional schema pass, gets the error result that
    names the domain and the model; the generator and the output
    directory are left as they were, so no solver ran. *)
Theorem unregistered_pair_is_reported amb spec w :
  schema_gate spec = None ->
  SOLVERS (in_domain spec, in_model_type spec) = None ->
  simulate_model amb spec w =
    (Returned {| content := "No solver registered for domain="
                            ++ domain_str (in_domain spec)
                            ++ ", model_type=" ++ model_str (in_model_type spec);
                 isError := true;
                 meta := None |}, w).
Proof.
  intros Hgate Hmiss. unfold simulate_model. rewrite Hgate, Hmiss. reflexivity.
Qed.

(** Whatever a solver returns, the headers of the response are the keys
    of [initial_conditions] in the caller's order. *)
Lemma shape_response_columns amb spec out fs r o :
  fst (shape_response amb spec out fs) = Returned r ->
  meta r = Some o ->
  columns o = Some ("t" :: dict_keys (initial_conditions spec))
  /\ data o = (if return_data spec
               then Some (build_data_points (fst (fst out)) (snd (fst out))
                            (dict_keys (initial_conditions spec)))
               else None).
Proof.
  destruct out as [[t Y] m]. unfold shape_response.
  destruct (if save_artifacts spec then _ else _) as [arts fs'].
  destruct (metrics_view m) as [mv|e]; simpl; [|discriminate].
  destruct (summary_field m) as [s|e]; simpl; [|discriminate].
  intros [= <-] [= <-]. simpl. split; reflexivity.
Qed.

Lemma simulate_model_returned amb spec w r o :
  fst (simulate_model amb spec w) = Returned r ->
  meta r = Some o ->
  exists solver out g',
    SOLVERS (in_domain spec, in_model_type spec) = Some solver
    /\ call_solver solver spec (w_rng w) = (Ok out, g')
    /\ fst (shape_response amb spec out (w_fs w)) = Returned r.
Proof.
  unfold simulate_model.
  destruct (schema_gate spec) as [[]|].
  1-9: simpl; intros [= <-]; discriminate.
  destruct (SOLVERS _) as [solver|]; [|simpl; intros [= <-]; discriminate].
  destruct (call_solver solver spec (w_rng w)) as [[out|e] g'] eqn:Ec.
  - destruct (shape_response amb spec out (w_fs w)) as [res fs'] eqn:Es.
    simpl. intros -> _. exists solver, out, g'. rewrite Es. auto.
  - simpl. intros [= <-]; discriminate.
Qed.
End Dispatch.

(** ** What the response is built from: metrics and headers *)

Section ResponseFields.
Context {ext : Externals} {host : Host}.

Lemma mc_statistics_view_raises n_paths mu sigma S0 t paths out :
  mc_statistics n_paths mu sigma S0 t paths = Ok out ->
  exists e, metrics_view (snd out) = Raise e.
Proof.
  unfold mc_statistics. intros H.
  repeat (apply bind_Ok in H; destruct H as (? & _ & H)).
  injection H as <-. cbn [snd].
  cbn -[py_float_of_int].
  destruct (py_float_of_int n_paths) as [f|e]; cbn; eauto.
Qed.

Lemma mc_simulate_view_raises n_paths mu sigma S0 tspan steps g out g' :
  mc_simulate n_paths mu sigma S0 tspan steps g = (Ok out, g') ->
  exists e, metrics_view (snd out) = Raise e.
Proof.
  unfold mc_simulate.
  destruct (np_linspace _ _ _) as [t|]; [|discriminate].
  destruct (n_paths <? 0); [discriminate|].
  destruct (steps =? 0); [discriminate|].
  destruct (gbm_loop _ _ _ _ _ _ _) as [[cols|] g1]; [|discriminate].
  intros [= H _]. eapply mc_statistics_view_raises; eauto.
Qed.

Lemma simulate_monte_carlo_view_raises p y0 tspan steps meth g out g' :
  simulate_monte_carlo p y0 tspan steps meth g = (Ok out, g') ->
  exists e, metrics_view (snd out) = Raise e.
Proof.
  unfold simulate_monte_carlo.
  destruct (match dict_lookup "n_paths" p with Some v => py_int v | None => Ok 100 end)
    as [n_paths|]; [|discriminate].
  destruct (dict_lookup "seed" p) as [sd|].
  - destruct (bind (py_int sd) _) as [g0|]; [|discriminate].
    apply mc_simulate_view_raises.
  - apply mc_simulate_view_raises.
Qed.

(** C1, as the code behaves.  Whenever the Monte Carlo solver completes,
    building the metrics of the response raises on the nested
    [percentiles] entry and the exception leaves [simulate_model]: no
    result object is returned. *)
Theorem monte_carlo_response_escapes amb spec w out g' :
  schema_gate spec = None ->
  in_domain spec = finance ->
  in_model_type spec = MonteCarlo ->
  call_solver simulate_monte_carlo spec (w_rng w) = (Ok out, g') ->
  exists e, fst (simulate_model amb spec w) = Escaped e.
Proof.
  intros Hgate Hd Hm Hcall.
  destruct (simulate_monte_carlo_view_raises _ _ _ _ _ _ _ _ Hcall) as [e He].
  exists e. unfold simulate_model. rewrite Hgate, Hd, Hm.
  cbn [SOLVERS]. rewrite Hcall.
  destruct out as [[t Y] m]. unfold shape_response.
  destruct (if save_artifacts spec then _ else _) as [arts fs'].
  cbn [snd] in He. rewrite He. reflexivity.
Qed.

(** C2, as the code behaves.  For the SIR request whose initial
    conditions are given as I then S, every response has the columns
    t, I, S, and each row files the first state row of the solver (the
    susceptible fraction) under I and the second under S. *)
Theorem caller_keys_label_the_rows amb w r o :
  fst (simulate_model amb Reference.sir_swapped w) = Returned r ->
  meta r = Some o ->
  columns o = Some ["t"; "I"; "S"]
  /\ columns o <> Some ("t" :: state_variables SIR)
  /\ exists t Y m g' rows,
       call_solver (ode_solver simulate_sir) Reference.sir_swapped (w_rng w)
         = (Ok (t, Y, m), g')
       /\ data o = Some rows
       /\ forall row, In row rows ->
            exists i ti a b,
              py_index t i = Ok ti /\ mat_at Y 0 i = Ok a /\ mat_at Y 1 i = Ok b
              /\ row = [("t", ti); ("I", a); ("S", b)].
Proof.
  intros Hr Ho.
  destruct (simulate_model_returned _ _ _ _ _ Hr Ho) as (solver & out & g' & Hs & Hc & Hsh).
  cbn in Hs. injection Hs as <-.
  destruct (shape_response_columns _ _ _ _ _ _ Hsh Ho) as [Hcol Hdata].
  destruct out as [[t Y] m]. cbn in Hcol, Hdata.
  split; [exact Hcol|]. split; [rewrite Hcol; discriminate|].
  exists t, Y, m, g', (build_data_points t Y ["I"; "S"]).
  split; [exact Hc|]. split; [exact Hdata|].
  intros row Hin. apply rows_until_sound in Hin. destruct Hin as (i & _ & Hi).
  unfold data_point in Hi.
  apply bind_Ok in Hi. destruct Hi as (ti & Hti & Hi).
  cbn in Hi.
  apply bind_Ok in Hi. destruct Hi as (p1 & Hp1 & Hi).
  apply bind_Ok in Hp1. destruct Hp1 as (a & Ha & Hp1).
  apply bind_Ok in Hi. destruct Hi as (b & Hb & Hi).
  injection Hp1 as <-. injection Hi as <-.
  exists i, ti, a, b. repeat split; assumption.
Qed.
End ResponseFields.

(** ** The evaluation grid *)






Section TimePoints.
Context {ext : Externals} {host : Host}.

(** What the integrator promises (and the only thing assumed of it): a
    successful run reports the evaluation grid as its time points. *)
Hypothesis solve_ivp_grid :
  forall f span y0 meth t_eval rtol atol sol,
    solve_ivp f span y0 meth t_eval rtol atol = Ok sol ->
    sol_success sol = true ->
    sol_t sol = t_eval.









End TimePoints.

(** ** The projectile: initial velocity and landing *)

Lemma nth_error_map2 {A B C : Type} (f : A * B -> C) (a : list A) (b : list B) (j : nat) :
  List.length a = List.length b ->
  nth_error (map f (combine a b)) j =
    match nth_error a j, nth_error b j with
    | Some x, Some y => Some (f (x, y))
    | _, _ => None
    end.
Proof.
  revert b j; induction a as [|x a IH]; intros [|y b] j Hlen; try discriminate.
  - destruct j; reflexivity.
  - destruct j; simpl; [reflexivity|]. apply IH. now injection Hlen.
Qed.

Lemma py_index_vec_map2 f a b i v :
  vec_map2 f a b = Ok v ->
  forall c, py_index v i = Ok c ->
  exists x y, py_index a i = Ok x /\ py_index b i = Ok y /\ c = f x y.
Proof.
  unfold vec_map2. destruct (List.length a =? List.length b)%nat eqn:E; [|discriminate].
  apply Nat.eqb_eq in E. intros [= <-] c.
  unfold py_index, zlen. rewrite length_map, length_combine, <- E, Nat.min_id.
  set (j := if i <? 0 then i + Z.of_nat (List.length a) else i).
  destruct (j <? 0); [discriminate|].
  rewrite (nth_error_map2 _ a b _ E).
  destruct (nth_error a (Z.to_nat j)) as [x|]; [|discriminate].
  destruct (nth_error b (Z.to_nat j)) as [y|]; [|discriminate].
  intros [= <-]. exists x, y. auto.
Qed.

Section ProjectileFacts.
Context {ext : Externals}.

(** C4.  The projectile solver runs the integrator on the state vector
    [x0, y0, vx0, vy0] in which a velocity component supplied and
    different from zero is taken as given, and one that is absent, or
    supplied as zero, is [v0 * cos(angle)] for [vx] and [v0 * sin(angle)]
    for [vy], the angle being the [angle] parameter times pi/180: what
    the integrator does with that vector (raise, report failure, return a
    trajectory) is what the solver does. *)
Theorem projectile_velocity_policy parameters y0 tspan steps meth :
  let v0 := dict_get "v0" 20.0%float parameters in
  let angle_rad := (dict_get "angle" 45.0%float parameters * (pi / 180))%float in
  exists x0 y0_val vx0 vy0,
    projectile_y0_vec parameters y0 = [x0; y0_val; vx0; vy0]
    /\ (forall v, dict_lookup "vx" y0 = Some v -> (v =? 0)%float = false -> vx0 = v)
    /\ (dict_lookup "vx" y0 = None
        \/ (exists v, dict_lookup "vx" y0 = Some v /\ (v =? 0)%float = true) ->
        vx0 = (v0 * np_cos angle_rad)%float)
    /\ (forall v, dict_lookup "vy" y0 = Some v -> (v =? 0)%float = false -> vy0 = v)
    /\ (dict_lookup "vy" y0 = None
        \/ (exists v, dict_lookup "vy" y0 = Some v /\ (v =? 0)%float = true) ->
        vy0 = (v0 * np_sin angle_rad)%float)
    /\ x0 = dict_get "x" 0.0%float y0
    /\ y0_val = dict_get "y" 0.0%float y0
    /\ forall t_eval,
         np_linspace (fst tspan) (snd tspan) steps = Ok t_eval ->
         match solve_ivp (projectile_rhs (dict_get "g" 9.81%float parameters)) tspan
                 [x0; y0_val; vx0; vy0] meth t_eval 1e-6%float 1e-9%float with
         | Raise e => simulate_projectile parameters y0 tspan steps meth = Raise e
         | Ok sol =>
             if sol_success sol
             then forall t Y m,
                    simulate_projectile parameters y0 tspan steps meth = Ok (t, Y, m) ->
                    t = sol_t sol /\ Y = sol_y sol
             else simulate_projectile parameters y0 tspan steps meth
                  = Raise (RuntimeError (sol_message sol))
         end.
Proof.
  intros v0 angle_rad.
  exists (dict_get "x" 0.0%float y0), (dict_get "y" 0.0%float y0),
         (initial_velocity "vx" (v0 * np_cos angle_rad)%float y0),
         (initial_velocity "vy" (v0 * np_sin angle_rad)%float y0).
  split; [reflexivity|].
  unfold initial_velocity at 1 2 3 4.
  split; [intros v -> Hv; now rewrite Hv|].
  split; [intros [-> | (v & -> & Hv)]; [reflexivity | now rewrite Hv]|].
  split; [intros v -> Hv; now rewrite Hv|].
  split; [intros [-> | (v & -> & Hv)]; [reflexivity | now rewrite Hv]|].
  split; [reflexivity|]. split; [reflexivity|].
  intros t_eval Ht. unfold simulate_projectile. rewrite Ht. cbn [bind].
  change (projectile_y0_vec parameters y0)
    with [dict_get "x" 0.0%float y0; dict_get "y" 0.0%float y0;
          initial_velocity "vx" (v0 * np_cos angle_rad)%float y0;
          initial_velocity "vy" (v0 * np_sin angle_rad)%float y0].
  destruct (solve_ivp _ _ _ _ _ _ _) as [sol|e]; cbn [bind]; [|reflexivity].
  destruct (sol_success sol); cbn [negb]; [|reflexivity].
  intros t Y m H.
  repeat (apply bind_Ok in H; destruct H as (? & _ & H)).
  injection H as <- <- _. split; reflexivity.
Qed.

Lemma landing_fold y h lo k acc :
  let r := fold_left (landing_step y h) (zrange lo k) acc in
  (r = acc /\ forall i, lo <= i < lo + Z.of_nat k -> descends_at y h i = false)
  \/ (lo <= r < lo + Z.of_nat k /\ descends_at y h r = true
      /\ forall i, r < i < lo + Z.of_nat k -> descends_at y h i = false).
Proof.
  induction k as [|k IH]; intros r.
  - left. split; [reflexivity | intros i Hi; lia].
  - subst r. rewrite zrange_snoc, fold_left_app. cbn [fold_left].
    cbv zeta in IH.
    set (a := fold_left (landing_step y h) (zrange lo k) acc) in *.
    unfold landing_step. rewrite Nat2Z.inj_succ.
    destruct (descends_at y h (lo + Z.of_nat k)) eqn:E.
    + right. split; [lia|]. split; [exact E|]. intros i Hi; lia.
    + destruct IH as [[-> Hnone] | (Hr & Hd & Hafter)].
      * left. split; [reflexivity|]. intros i Hi.
        destruct (Z.eq_dec i (lo + Z.of_nat k)) as [->|]; [exact E | apply Hnone; lia].
      * right. split; [lia|]. split; [exact Hd|]. intros i Hi.
        destruct (Z.eq_dec i (lo + Z.of_nat k)) as [->|]; [exact E | apply Hafter; lia].
Qed.

Lemma find_landing_idx_spec y h :
  let idx := find_landing_idx y h in
  (forall i, 1 <= i < zlen y -> descends_at y h i = true ->
     1 <= idx < zlen y /\ descends_at y h idx = true /\ i <= idx)
  /\ ((forall i, 1 <= i < zlen y -> descends_at y h i = false) ->
      idx = zlen y - 1).
Proof.
  intros idx. subst idx. unfold find_landing_idx, py_range.
  pose proof (landing_fold y h 1 (Z.to_nat (zlen y - 1)) (zlen y - 1)) as H.
  cbv zeta in H.
  set (r := fold_left _ _ _) in *.
  assert (Hk : forall i, 1 <= i < 1 + Z.of_nat (Z.to_nat (zlen y - 1)) <-> 1 <= i < zlen y)
    by (intros i; lia).
  split.
  - intros i Hi Hd.
    destruct H as [[_ Hnone] | (Hr & Hdr & Hafter)].
    + rewrite Hnone in Hd by (apply Hk; exact Hi). discriminate.
    + split; [apply Hk; exact Hr|]. split; [exact Hdr|].
      destruct (Z_le_gt_dec i r) as [|Hgt]; [assumption|].
      rewrite Hafter in Hd by (split; [lia | apply Hk; exact Hi]). discriminate.
  - intros Hnone.
    destruct H as [[-> _] | (Hr & Hdr & _)]; [reflexivity|].
    rewrite Hnone in Hdr by (apply Hk; exact Hr). discriminate.
Qed.
End ProjectileFacts.

Section ProjectileLanding.
Context {ext : Externals}.

Example find_landing_idx_two_descents :
  find_landing_idx [0; 1; -1; 2; -2; 3]%float 0%float = 4.
Proof. reflexivity. Qed.

Example find_landing_idx_no_descent :
  find_landing_idx [0; 1; 2; 3]%float 0%float = 3.
Proof. reflexivity. Qed.

(** C8.  When the projectile solver returns, the landing index is the
    last index [i >= 1] with [y[i] < h] and [y[i-1] >= h], [h] being the
    initial height; without such an index it is the last index of the
    grid; [range], [t_landing] and [v_final] are the horizontal position,
    the time and the speed at that index. *)
Theorem projectile_landing_metrics p y0 tspan steps meth t Y m :
  simulate_projectile p y0 tspan steps meth = Ok (t, Y, m) ->
  exists x_vals y_vals vx_vals vy_vals,
    mat_row Y 0 = Ok x_vals /\ mat_row Y 1 = Ok y_vals
    /\ mat_row Y 2 = Ok vx_vals /\ mat_row Y 3 = Ok vy_vals
    /\ let h := dict_get "y" 0.0%float y0 in
       let y := fun i : Z => nth (Z.to_nat i) y_vals fzero in
       let idx := find_landing_idx y_vals h in
       (forall i, 1 <= i < zlen y_vals ->
          PrimFloat.ltb (y i) h = true -> PrimFloat.leb h (y (i - 1)) = true ->
          1 <= idx < zlen y_vals
          /\ PrimFloat.ltb (y idx) h = true /\ PrimFloat.leb h (y (idx - 1)) = true
          /\ i <= idx)
       /\ ((forall i, 1 <= i < zlen y_vals ->
              PrimFloat.ltb (y i) h = true -> PrimFloat.leb h (y (i - 1)) = true -> False) ->
           idx = zlen y_vals - 1)
       /\ exists xr tl vx vy,
            py_index x_vals idx = Ok xr /\ py_index t idx = Ok tl
            /\ py_index vx_vals idx = Ok vx /\ py_index vy_vals idx = Ok vy
            /\ dict_lookup "range" m = Some (VFloat xr)
            /\ dict_lookup "t_landing" m = Some (VFloat tl)
            /\ dict_lookup "v_final" m = Some (VFloat (sqrt (vx * vx + vy * vy))).
Proof.
  unfold simulate_projectile. intros H.
  apply bind_Ok in H. destruct H as (t_eval & _ & H).
  apply bind_Ok in H. destruct H as (sol & _ & H).
  destruct (sol_success sol); [|discriminate H]. cbn [negb] in H.
  apply bind_Ok in H. destruct H as (x_vals & Hx & H).
  apply bind_Ok in H. destruct H as (y_vals & Hy & H).
  apply bind_Ok in H. destruct H as (vx_vals & Hvx & H).
  apply bind_Ok in H. destruct H as (vy_vals & Hvy & H).
  apply bind_Ok in H. destruct H as (y_max & _ & H).
  apply bind_Ok in H. destruct H as (i_max & _ & H).
  apply bind_Ok in H. destruct H as (t_max & _ & H).
  apply bind_Ok in H. destruct H as (xr & Hxr & H).
  apply bind_Ok in H. destruct H as (tl & Htl & H).
  apply bind_Ok in H. destruct H as (v_total & Hvt & H).
  apply bind_Ok in H. destruct H as (v_max & _ & H).
  apply bind_Ok in H. destruct H as (v_final & Hvf & H).
  injection H as <- <- <-.
  exists x_vals, y_vals, vx_vals, vy_vals.
  do 4 (split; [assumption|]).
  destruct (find_landing_idx_spec y_vals (dict_get "y" 0.0%float y0)) as [Hlast Hnone].
  cbv zeta in Hlast, Hnone. unfold descends_at in Hlast, Hnone.
  split; [|split].
  - intros i Hi Hlt Hge.
    destruct (Hlast i Hi) as (Hr & Hd & Hle); [now rewrite Hlt, Hge|].
    apply andb_true_iff in Hd. destruct Hd as [Hd1 Hd2].
    repeat split; assumption || apply Hr.
  - intros Hno. apply Hnone. intros i Hi.
    destruct (nth (Z.to_nat i) y_vals fzero <? dict_get "y" 0.0%float y0)%float eqn:E1;
      [|reflexivity].
    destruct (dict_get "y" 0.0%float y0 <=? nth (Z.to_nat (i - 1)) y_vals fzero)%float
      eqn:E2; [|reflexivity].
    exfalso. exact (Hno i Hi E1 E2).
  - destruct (py_index_vec_map2 _ _ _ _ _ Hvt _ Hvf) as (vx & vy & Hvxi & Hvyi & ->).
    exists xr, tl, vx, vy. repeat split; assumption || reflexivity.
Qed.
End ProjectileLanding.

(** ** Reproducibility *)

Section Reproducibility.
Context {ext : Externals} {host : Host}.

(** C10.  The method selector does not reach the Monte Carlo solver's
    output: two calls that differ only in [method], from the same
    generator state, return the same time grid, state matrix, metrics
    and generator state. *)
Theorem monte_carlo_ignores_method p y0 tspan steps (m1 m2 : method) g :
  simulate_monte_carlo p y0 tspan steps m1 g
  = simulate_monte_carlo p y0 tspan steps m2 g.
Proof. reflexivity. Qed.

Lemma seeded_monte_carlo_forgets_state p y0 tspan steps meth g1 g2 :
  dict_mem "seed" p = true ->
  fst (simulate_monte_carlo p y0 tspan steps meth g1)
  = fst (simulate_monte_carlo p y0 tspan steps meth g2).
Proof.
  unfold dict_mem, simulate_monte_carlo.
  destruct (match dict_lookup "n_paths" p with Some v => py_int v | None => Ok 100 end)
    as [n_paths|e]; [|reflexivity].
  destruct (dict_lookup "seed" p) as [sd|]; [intros _|discriminate].
  destruct (bind (py_int sd) _) as [g0|e]; reflexivity.
Qed.

Lemma solver_output_forgets_state key solver p y0 tspan steps meth g1 g2 :
  SOLVERS key = Some solver ->
  snd key <> MonteCarlo \/ dict_mem "seed" p = true ->
  fst (solver p y0 tspan steps meth g1) = fst (solver p y0 tspan steps meth g2).
Proof.
  intros Hreg Hcase.
  destruct key as [[] []]; cbn in Hreg; try discriminate;
    injection Hreg as <-; unfold ode_solver; cbn [fst snd];
    try reflexivity.
  destruct Hcase as [Hne | Hseed]; [cbn in Hne; contradiction|].
  now apply seeded_monte_carlo_forgets_state.
Qed.

Lemma shape_response_forgets_world amb1 amb2 spec out fs1 fs2 :
  numeric_view (fst (shape_response amb1 spec out fs1))
  = numeric_view (fst (shape_response amb2 spec out fs2))
  /\ (save_artifacts spec = false ->
      fst (shape_response amb1 spec out fs1) = fst (shape_response amb2 spec out fs2)).
Proof.
  destruct out as [[t Y] m]. unfold shape_response.
  destruct (save_artifacts spec).
  - split; [|discriminate].
    destruct (save_artifacts_step t Y _ (run_id_of amb1 spec) fs1) as [arts1 fs1'].
    destruct (save_artifacts_step t Y _ (run_id_of amb2 spec) fs2) as [arts2 fs2'].
    destruct (bind (metrics_view m) _) as [[mv s]|e]; reflexivity.
  - split; [|intros _];
      destruct (bind (metrics_view m) _) as [[mv s]|e]; reflexivity.
Qed.

(** C7.  Two runs of one request give the same result whatever the state
    they start from.  At the solvers: a registered ODE solver, and the
    Monte Carlo solver given a seed, return the same time points, state
    matrix and metrics from any two states of the random generator.  At
    the tool: for an ODE model, or Monte Carlo with a seed, two calls made
    at different clock times and uuids, from different generator states
    and different contents of the output directory, agree on everything
    in the response but the artifact list, and on that too when no
    artifacts are asked for. *)
Theorem runs_are_reproducible :
  (forall key solver p y0 tspan steps meth g1 g2,
     SOLVERS key = Some solver ->
     snd key <> MonteCarlo \/ dict_mem "seed" p = true ->
     fst (solver p y0 tspan steps meth g1) = fst (solver p y0 tspan steps meth g2))
  /\ (forall spec amb1 amb2 w1 w2,
        in_model_type spec <> MonteCarlo
        \/ dict_mem "seed" (parameters spec) = true ->
        numeric_view (fst (simulate_model amb1 spec w1))
        = numeric_view (fst (simulate_model amb2 spec w2))
        /\ (save_artifacts spec = false ->
            fst (simulate_model amb1 spec w1) = fst (simulate_model amb2 spec w2))).
Proof.
  split; [exact solver_output_forgets_state|].
  intros spec amb1 amb2 w1 w2 Hcase. unfold simulate_model.
  destruct (schema_gate spec) as [[]|]; try (split; reflexivity).
  destruct (SOLVERS (in_domain spec, in_model_type spec)) as [solver|] eqn:Hreg;
    [|split; reflexivity].
  pose proof (solver_output_forgets_state _ solver (parameters spec)
                (initial_conditions spec)
                (ts_start (time_span spec), ts_end (time_span spec))
                (actual_steps (time_span spec)) (in_method spec)
                (w_rng w1) (w_rng w2) Hreg Hcase) as Hfst.
  unfold call_solver.
  destruct (solver _ _ _ _ _ (w_rng w1)) as [r1 g1'].
  destruct (solver _ _ _ _ _ (w_rng w2)) as [r2 g2'].
  cbn [fst] in Hfst. subst r2.
  destruct r1 as [out|e]; [|split; reflexivity].
  destruct (shape_response_forgets_world amb1 amb2 spec out (w_fs w1) (w_fs w2))
    as [Hview Hfull].
  destruct (shape_response amb1 spec out (w_fs w1)) as [res1 fs1'].
  destruct (shape_response amb2 spec out (w_fs w2)) as [res2 fs2'].
  split; [exact Hview | exact Hfull].
Qed.
End Reproducibility.

(** ** Artifacts *)

Section Artifacts.
Context {ext : Externals} {host : Host}.



(** The tail of [simulate_model] once the solver has returned. *)
Lemma simulate_model_completed amb spec w solver out g' :
  schema_gate spec = None ->
  SOLVERS (in_domain spec, in_model_type spec) = Some solver ->
  call_solver solver spec (w_rng w) = (Ok out, g') ->
  fst (simulate_model amb spec w) = fst (shape_response amb spec out (w_fs w)).
Proof.
  intros Hgate Hreg Hcall. unfold simulate_model.
  rewrite Hgate, Hreg, Hcall.
  destruct (shape_response amb spec out (w_fs w)); reflexivity.
Qed.
End Artifacts.

(** ** Monte Carlo without drift and volatility *)

Lemma mapM_repeat {A B : Type} (f : A -> result B) (x : A) (y : B) (n : nat) :
  f x = Ok y -> mapM f (repeat x n) = Ok (repeat y n).
Proof.
  intros Hf. induction n as [|n IH]; simpl; [reflexivity|].
  rewrite Hf, IH. reflexivity.
Qed.

Lemma py_index_repeat_last {A : Type} (x : A) (n : nat) :
  py_index (repeat x (S n)) (-1) = Ok x.
Proof.
  replace (repeat x (S n)) with (repeat x n ++ [x])%list.
  - apply py_index_last.
  - symmetry. apply (repeat_cons n x).
Qed.

Lemma np_linspace_total start stop num :
  0 <= num -> exists t, np_linspace start stop num = Ok t.
Proof.
  intros Hn. unfold np_linspace.
  destruct (num <? 0) eqn:E; [apply Z.ltb_lt in E; lia | eauto].
Qed.

Section FlatMarket.
Context {ext : Externals}.

Hypothesis pow_zero : py_pow 0%float 2%float = 0%float.
Hypothesis exp_zero : np_exp 0%float = 1%float.
Hypothesis exp_neg_zero : np_exp (-0)%float = 1%float.

Lemma float_pow_zero : float_pow 0%float 2%float = Ok 0%float.
Proof. unfold float_pow. rewrite pow_zero. reflexivity. Qed.

Lemma gbm_factor_one dt w :
  is_finite dt = true -> is_finite w = true ->
  np_exp ((0 - 0.5 * 0) * dt + 0 * w)%float = 1%float.
Proof.
  intros Hdt Hw.
  change (0 - 0.5 * 0)%float with 0%float.
  assert (Hz : is_pm_zero (0 * dt + 0 * w)%float).
  { apply pm_zero_add; apply mul_zero_finite; try assumption; left; reflexivity. }
  destruct Hz as [-> | ->]; assumption.
Qed.

Lemma gbm_update_flat dt (c : float) (dW : list float) :
  (c * 1)%float = c ->
  is_finite dt = true ->
  Forall (fun w => is_finite w = true) dW ->
  gbm_update 0%float 0%float dt (repeat c (List.length dW)) dW
  = Ok (repeat c (List.length dW)).
Proof.
  intros Hc Hdt HdW. unfold gbm_update. rewrite float_pow_zero. cbn [bind].
  unfold vec_map2.
  rewrite length_map, repeat_length, Nat.eqb_refl. f_equal.
  induction HdW as [|w dW Hw _ IH]; [reflexivity|].
  cbn [List.length repeat map combine fst snd].
  rewrite gbm_factor_one by assumption.
  rewrite Hc, IH. reflexivity.
Qed.

Lemma gbm_loop_flat k dt (c : float) (n : Z) g :
  (c * 1)%float = c ->
  is_finite dt = true ->
  finite_draws (sqrt dt) n ->
  exists g',
    gbm_loop k 0%float 0%float dt n (repeat c (Z.to_nat n)) g
    = (Ok (repeat (repeat c (Z.to_nat n)) k), g').
Proof.
  intros Hc Hdt Hrng. revert g.
  induction k as [|k IH]; intros g; [exists g; reflexivity|].
  cbn [gbm_loop].
  destruct (Hrng g) as (dW & g1 & -> & Hlen & Hfin).
  rewrite <- Hlen, (gbm_update_flat dt c dW Hc Hdt Hfin), Hlen.
  destruct (IH g1) as (g2 & ->). exists g2. reflexivity.
Qed.
End FlatMarket.

Section FlatMarketRun.
Context {ext : Externals}.

Lemma mc_statistics_flat t k :
  exists m,
    mc_statistics 10 0%float 0%float 100%float t
      (repeat (repeat 100%float 10) (S k))
    = Ok (t, [repeat 100%float (S k)], m)
    /\ dict_lookup "prob_profit_pct" m = Some (VFloat 0%float).
Proof.
  unfold mc_statistics.
  assert (Hmin : np_min (repeat 100%float 10) = Ok 100%float) by reflexivity.
  assert (Hmax : np_max (repeat 100%float 10) = Ok 100%float) by reflexivity.
  assert (Hmean : np_mean (repeat 100%float 10) = 100%float) by reflexivity.
  assert (Hfrac : (frac_above 100 (repeat 100%float 10) * 100)%float = 0%float)
    by reflexivity.
  rewrite (mapM_repeat _ _ _ (S k) Hmin), (mapM_repeat _ _ _ (S k) Hmax).
  rewrite !map_repeat, Hmean. cbn [bind].
  repeat (rewrite py_index_repeat_last; cbn [bind]).
  rewrite Hfrac.
  eexists. split; [reflexivity|]. reflexivity.
Qed.

(** C5.  With [mu = 0], [sigma = 0], [n_paths = 10], [seed = 42] and
    [S = 100] the solver returns; every entry of the one row of the state
    matrix is exactly 100 and [prob_profit_pct] is exactly 0.  Assumed of
    libm: [pow(0, 2) = 0] and [exp(0) = exp(-0) = 1]; of numpy: 42 is an
    accepted seed and the draws are finite; of the request: the step [dt]
    of its grid is finite. *)
Theorem flat_market_stays_flat tspan steps meth g :
  1 <= steps ->
  py_pow 0%float 2%float = 0%float ->
  np_exp 0%float = 1%float ->
  np_exp (-0)%float = 1%float ->
  (exists g0, np_random_seed 42 = Ok g0) ->
  is_finite (mc_dt tspan steps) = true ->
  finite_draws (sqrt (mc_dt tspan steps)) 10 ->
  exists t m g',
    simulate_monte_carlo
      [("mu", 0%float); ("sigma", 0%float); ("n_paths", 10%float); ("seed", 42%float)]
      [("S", 100%float)] tspan steps meth g
    = (Ok (t, [repeat 100%float (Z.to_nat steps)], m), g')
    /\ dict_lookup "prob_profit_pct" m = Some (VFloat 0%float).
Proof.
  intros Hsteps Hpow Hexp Hexpn [g0 Hseed] Hdt Hrng.
  unfold simulate_monte_carlo.
  change (dict_lookup "n_paths" _) with (Some 10%float).
  change (dict_lookup "seed" _) with (Some 42%float).
  change (dict_get "mu" _ _) with 0%float.
  change (dict_get "sigma" _ _) with 0%float.
  change (dict_get "S" _ _) with 100%float.
  cbv beta iota zeta.
  change (py_int 10%float) with (Ok 10 : result Z).
  change (py_int 42%float) with (Ok 42 : result Z).
  cbn [bind]. rewrite Hseed.
  unfold mc_simulate.
  destruct (np_linspace_total (fst tspan) (snd tspan) steps) as [t ->]; [lia|].
  change (10 <? 0) with false. cbn iota.
  destruct (steps =? 0) eqn:E0; [apply Z.eqb_eq in E0; lia|].
  destruct (gbm_loop_flat Hpow Hexp Hexpn (Z.to_nat (steps - 1)) (mc_dt tspan steps)
              100%float 10 g0 eq_refl Hdt Hrng) as [g' Hloop].
  rewrite Hloop.
  change (repeat 100%float (Z.to_nat 10) :: repeat (repeat 100%float (Z.to_nat 10))
            (Z.to_nat (steps - 1)))
    with (repeat (repeat 100%float 10) (S (Z.to_nat (steps - 1)))).
  destruct (mc_statistics_flat t (Z.to_nat (steps - 1))) as (m & Hm & Hprob).
  rewrite Hm. replace (Z.to_nat steps) with (S (Z.to_nat (steps - 1))) by lia.
  exists t, m, g'. split; [reflexivity | exact Hprob].
Qed.
End FlatMarketRun.

(** * Further properties of the code *)

(** ** Steps, grid and registry *)

(** X1.  The validator accepts exactly the step counts from 2 upward and
    returns them unchanged; whatever the preview flag, the step count the
    solver then gets lies between 2 and the accepted one, is at most 100
    under preview, and capping it again changes nothing. *)
Theorem validated_steps_stay_valid v :
  (v < 2 -> _min_steps v = Raise (ValueError "steps must be >= 2"))
  /\ (2 <= v ->
      _min_steps v = Ok v
      /\ forall s e p,
           let n := actual_steps (mkTimeSpan s e v p) in
           2 <= n <= v
           /\ (p = true -> n <= 100)
           /\ (p = false -> n = v)
           /\ actual_steps (mkTimeSpan s e n p) = n).
Proof.
  unfold _min_steps. split; intros Hv.
  - destruct (v <? 2) eqn:E; [reflexivity | apply Z.ltb_ge in E; lia].
  - destruct (v <? 2) eqn:E; [apply Z.ltb_lt in E; lia|].
    split; [reflexivity|]. intros s e p.
    unfold actual_steps; cbn [preview_mode ts_steps].
    destruct p; repeat split; try discriminate; try reflexivity; lia.
Qed.


Section Registry.
Context {ext : Externals}.

(** X2.  A model is registered under one domain only: [SOLVERS] has an
    entry for a pair exactly when the domain is the model's own, so no
    model resolves under [custom] and none under a second domain. *)
Theorem registry_one_domain_per_model d m :
  (SOLVERS (d, m) <> None <-> d = home_domain m)
  /\ SOLVERS (custom, m) = None.
Proof.
  split; [|destruct m; reflexivity].
  destruct d, m; cbn; split; intros H; try discriminate; try reflexivity;
    try (exfalso; apply H; reflexivity).
Qed.
End Registry.

(** ** The landing index stays inside the array *)

Section LandingRange.
Context {ext : Externals}.

(** X3.  On a non-empty height row the landing index is an index of the
    row (the last one unless a descent was found), so reading the range,
    the landing time and the landing speed there cannot raise when the
    rows and the grid have one length. *)
Theorem landing_index_in_range (y_vals x_vals : list float) h :
  y_vals <> [] ->
  0 <= find_landing_idx y_vals h < zlen y_vals
  /\ (zlen x_vals = zlen y_vals ->
      exists x, py_index x_vals (find_landing_idx y_vals h) = Ok x).
Proof.
  intros Hy.
  assert (Hlen : 1 <= zlen y_vals).
  { destruct y_vals; [contradiction|]. unfold zlen. cbn [List.length]. lia. }
  assert (Hr : 0 <= find_landing_idx y_vals h < zlen y_vals).
  { unfold find_landing_idx, py_range.
    pose proof (landing_fold y_vals h 1 (Z.to_nat (zlen y_vals - 1)) (zlen y_vals - 1)) as H.
    cbv zeta in H. destruct H as [[-> _] | (Hr & _)]; lia. }
  split; [exact Hr|].
  intros Hx. eexists. apply py_index_nth with (d := fzero). rewrite Hx. exact Hr.
Qed.
End LandingRange.

(** ** The response of a completed or failed solver *)

Section ResponseOutcomes.
Context {ext : Externals} {host : Host}.

(** X4.  The metrics of a response keep the solver's entries in their
    order, without the summary: the keys are the solver's keys minus
    "summary", and each value is [float] of the solver's value under the
    same key. *)
Theorem metrics_view_keeps_order m mv :
  metrics_view m = Ok mv ->
  dict_keys mv = filter (fun k => negb (String.eqb k "summary")) (dict_keys m)
  /\ dict_lookup "summary" mv = None
  /\ forall k f, dict_lookup k mv = Some f ->
       exists v, dict_lookup k m = Some v /\ py_float v = Ok f.
Proof.
  revert mv. induction m as [|[k v] m IH]; intros mv H.
  - injection H as <-. split; [reflexivity|]. split; [reflexivity|].
    intros k f Hl. discriminate Hl.
  - cbn [metrics_view] in H. cbn [dict_keys map fst filter].
    destruct (String.eqb k "summary") eqn:Ek.
    + destruct (IH mv H) as (Hk & Hs & Hv). cbn [negb].
      split; [exact Hk|]. split; [exact Hs|].
      intros k' f Hl. destruct (Hv k' f Hl) as (v' & Hv' & Hf).
      exists v'. split; [|exact Hf]. cbn [dict_lookup].
      destruct (String.eqb k' k) eqn:Ekk; [|exact Hv'].
      apply String.eqb_eq in Ekk. apply String.eqb_eq in Ek. subst k' k.
      rewrite Hs in Hl. discriminate.
    + apply bind_Ok in H. destruct H as (f & Hf & H).
      apply bind_Ok in H. destruct H as (rest & Hrest & H).
      injection H as <-.
      destruct (IH rest Hrest) as (Hk & Hs & Hv). cbn [negb].
      split; [cbn [dict_keys map fst]; f_equal; exact Hk|].
      split.
      * cbn [dict_lookup]. rewrite String.eqb_sym, Ek. exact Hs.
      * intros k' f' Hl. cbn [dict_lookup] in Hl |- *.
        destruct (String.eqb k' k); [injection Hl as <-; eauto | auto].
Qed.

Ltac ode_metrics H :=
  apply bind_Ok in H; destruct H as (? & _ & H);
  apply bind_Ok in H; destruct H as (sol & _ & H);
  destruct (sol_success sol); [|discriminate H];
  cbn [negb] in H;
  repeat (apply bind_Ok in H; destruct H as (? & _ & H));
  injection H as _ _ <-;
  do 2 eexists; split; [reflexivity|]; split; reflexivity.

Lemma ode_metrics_convert key solver p y0 tspan steps meth g t Y m g' :
  SOLVERS key = Some solver ->
  snd key <> MonteCarlo ->
  solver p y0 tspan steps meth g = (Ok (t, Y, m), g') ->
  exists mv s,
    metrics_view m = Ok mv /\ summary_field m = Ok s
    /\ dict_lookup "summary" m = Some (VStr s).
Proof.
  destruct key as [[] []]; cbn; intros [= <-] Hne; try discriminate;
    try contradiction; unfold ode_solver; intros [= H _].
  - unfold simulate_sir in H. ode_metrics H.
  - unfold simulate_lotka_volterra in H. ode_metrics H.
  - unfold simulate_logistic in H. ode_metrics H.
  - unfold simulate_projectile in H. ode_metrics H.
Qed.

(** X5.  For the four ODE models a completed solver always yields the
    success response: not an error, status success, the solver's summary
    string, and as metrics the converted entries of the solver. *)
Theorem ode_request_succeeds amb spec w solver out g' :
  schema_gate spec = None ->
  in_model_type spec <> MonteCarlo ->
  SOLVERS (in_domain spec, in_model_type spec) = Some solver ->
  call_solver solver spec (w_rng w) = (Ok out, g') ->
  exists o,
    fst (simulate_model amb spec w)
      = Returned {| content := model_dump_json o; isError := false; meta := Some o |}
    /\ status o = success
    /\ message o = "Simulation completed"
    /\ (exists s, summary o = Some s /\ dict_lookup "summary" (snd out) = Some (VStr s))
    /\ metrics_view (snd out) = Ok (metrics o).
Proof.
  intros Hgate Hne Hreg Hcall.
  rewrite (simulate_model_completed amb spec w solver out g' Hgate Hreg Hcall).
  destruct out as [[t Y] m].
  destruct (ode_metrics_convert _ _ _ _ _ _ _ _ _ _ _ _ Hreg Hne Hcall)
    as (mv & s & Hmv & Hs & Hsum).
  unfold shape_response.
  destruct (if save_artifacts spec then _ else _) as [arts fs'].
  rewrite Hmv, Hs. cbn [bind fst snd].
  eexists. split; [reflexivity|]. cbn.
  split; [reflexivity|]. split; [reflexivity|].
  split; [exists s; split; [reflexivity | exact Hsum] | exact Hmv].
Qed.

(** X6.  A request that does not ask for artifacts never touches the
    output directory, whatever its outcome; if moreover its model is not
    MonteCarlo the random generator is untouched too, so the call leaves
    no trace. *)
Theorem no_artifacts_no_trace amb spec w :
  save_artifacts spec = false ->
  w_fs (snd (simulate_model amb spec w)) = w_fs w
  /\ (in_model_type spec <> MonteCarlo -> snd (simulate_model amb spec w) = w).
Proof.
  intros Hsave. unfold simulate_model.
  destruct (schema_gate spec) as [[]|]; try (split; reflexivity).
  destruct (SOLVERS _) as [solver|] eqn:Hreg; [|split; reflexivity].
  destruct (call_solver solver spec (w_rng w)) as [[out|e] g'] eqn:Hcall.
  - assert (Hfs : snd (shape_response amb spec out (w_fs w)) = w_fs w).
    { destruct out as [[t Y] m]. unfold shape_response. rewrite Hsave.
      destruct (bind (metrics_view m) _) as [[mv s]|]; reflexivity. }
    destruct (shape_response amb spec out (w_fs w)) as [res fs'].
    cbn [snd] in Hfs. subst fs'. cbn [snd w_fs]. split; [reflexivity|].
    intros Hne. destruct w as [g fs]. cbn [w_rng w_fs] in *. f_equal.
    destruct (in_domain spec), (in_model_type spec); cbn in Hreg;
      try discriminate; try contradiction; injection Hreg as <-;
      unfold call_solver, ode_solver in Hcall; now injection Hcall.
  - cbn [snd w_fs]. split; [reflexivity|].
    intros Hne. destruct w as [g fs]. cbn [w_rng w_fs] in *. f_equal.
    destruct (in_domain spec), (in_model_type spec); cbn in Hreg;
      try discriminate; try contradiction; injection Hreg as <-;
      unfold call_solver, ode_solver in Hcall; now injection Hcall.
Qed.

Lemma ode_solver_reports_failure d m solver p y0 tspan steps meth g f y0_vec t_eval sol :
  SOLVERS (d, m) = Some solver ->
  ode_problem m p y0 = Some (f, y0_vec) ->
  np_linspace (fst tspan) (snd tspan) steps = Ok t_eval ->
  solve_ivp f tspan y0_vec meth t_eval 1e-6%float 1e-9%float = Ok sol ->
  sol_success sol = false ->
  solver p y0 tspan steps meth g = (Raise (RuntimeError (sol_message sol)), g).
Proof.
  intros Hreg Hprob Hgrid Hsol Hok.
  destruct d, m; cbn in Hreg; try discriminate; injection Hreg as <-;
    cbn in Hprob; injection Hprob as <- <-; unfold ode_solver; f_equal.
  - unfold simulate_sir. rewrite Hgrid. cbn [bind]. rewrite Hsol. cbn [bind].
    now rewrite Hok.
  - unfold simulate_lotka_volterra. rewrite Hgrid. cbn [bind]. rewrite Hsol. cbn [bind].
    now rewrite Hok.
  - unfold simulate_logistic. rewrite Hgrid. cbn [bind]. rewrite Hsol. cbn [bind].
    now rewrite Hok.
  - unfold simulate_projectile. rewrite Hgrid. cbn [bind]. rewrite Hsol. cbn [bind].
    now rewrite Hok.
Qed.

(** X7.  When the integrator, run on the problem of this request (the
    model's right-hand side and initial state vector, the request's span,
    method and grid), reports failure, the call ends in the error result
    "Solver error: RuntimeError: <the integrator's message>"; nothing is
    written even if artifacts were requested, and the world is as
    before. *)
Theorem integrator_failure_is_reported amb spec w solver f y0_vec t_eval sol :
  schema_gate spec = None ->
  SOLVERS (in_domain spec, in_model_type spec) = Some solver ->
  ode_problem (in_model_type spec) (parameters spec) (initial_conditions spec)
    = Some (f, y0_vec) ->
  np_linspace (ts_start (time_span spec)) (ts_end (time_span spec))
    (actual_steps (time_span spec)) = Ok t_eval ->
  solve_ivp f (ts_start (time_span spec), ts_end (time_span spec)) y0_vec
    (in_method spec) t_eval 1e-6%float 1e-9%float = Ok sol ->
  sol_success sol = false ->
  simulate_model amb spec w
  = (Returned {| content := "Solver error: RuntimeError: " ++ sol_message sol;
                 isError := true;
                 meta := None |}, w).
Proof.
  intros Hgate Hreg Hprob Hgrid Hsol Hok.
  unfold simulate_model. rewrite Hgate, Hreg. unfold call_solver.
  rewrite (ode_solver_reports_failure _ _ solver (parameters spec)
             (initial_conditions spec)
             (ts_start (time_span spec), ts_end (time_span spec))
             (actual_steps (time_span spec)) (in_method spec) (w_rng w)
             f y0_vec t_eval sol Hreg Hprob Hgrid Hsol Hok).
  destruct w; reflexivity.
Qed.
End ResponseOutcomes.

(** ** Rows, CSV and plot of a solver output *)

Lemma rows_until_total {A : Type} (f : Z -> result A) (g : Z -> A) (idx : list Z) :
  (forall i, In i idx -> f i = Ok (g i)) ->
  rows_until f idx = (map g idx, None).
Proof.
  induction idx as [|i idx IH]; intros H; [reflexivity|].
  cbn [rows_until map]. rewrite (H i (or_introl eq_refl)).
  rewrite IH by (intros j Hj; apply H; right; exact Hj). reflexivity.
Qed.

Lemma rows_until_all_raise {A : Type} (f : Z -> result A) (idx : list Z) :
  (forall i, exists e, f i = Raise e) -> fst (rows_until f idx) = [].
Proof.
  intros H. destruct idx as [|i idx]; [reflexivity|].
  cbn [rows_until]. destruct (H i) as [e ->]. reflexivity.
Qed.

Lemma zrange_seq k n : zrange (Z.of_nat k) n = map Z.of_nat (seq k n).
Proof.
  revert k; induction n as [|n IH]; intros k; [reflexivity|].
  cbn [zrange seq map]. f_equal.
  replace (Z.of_nat k + 1) with (Z.of_nat (S k)) by lia. apply IH.
Qed.

Lemma py_range_zlen {A : Type} (l : list A) :
  py_range 0 (zlen l) = map Z.of_nat (seq 0 (List.length l)).
Proof.
  unfold py_range, zlen. rewrite Z.sub_0_r, Nat2Z.id. apply (zrange_seq 0).
Qed.

Lemma py_index_of_nat {A : Type} (l : list A) (i : nat) (d : A) :
  (i < List.length l)%nat -> py_index l (Z.of_nat i) = Ok (nth i l d).
Proof.
  intros Hi. rewrite (py_index_nth l (Z.of_nat i) d), Nat2Z.id; [reflexivity|].
  unfold zlen. lia.
Qed.

Lemma py_index_out_of_range {A : Type} (l : list A) (i : nat) :
  (List.length l <= i)%nat -> exists e, py_index l (Z.of_nat i) = Raise e.
Proof.
  intros Hi. unfold py_index.
  destruct (Z.of_nat i <? 0) eqn:E; [apply Z.ltb_lt in E; lia|]. rewrite E.
  rewrite Nat2Z.id. destruct (nth_error l i) eqn:En; [|eauto].
  assert (nth_error l i <> None) by (rewrite En; discriminate).
  apply nth_error_Some in H. lia.
Qed.

Lemma map_nth_seq {A B : Type} (f : A -> B) (l : list A) (d : A) :
  map (fun r => f (nth r l d)) (seq 0 (List.length l)) = map f l.
Proof.
  induction l as [|a l IH]; [reflexivity|].
  cbn [List.length seq map nth]. f_equal.
  rewrite <- seq_shift, map_map. exact IH.
Qed.

Lemma mat_col_column (Y : matrix) (i : nat) :
  Forall (fun row => (i < List.length row)%nat) Y ->
  mat_col Y (Z.of_nat i) = Ok (column Y i).
Proof.
  unfold mat_col, column. induction 1 as [|row Y Hrow _ IH]; [reflexivity|].
  cbn [mapM map]. rewrite (py_index_of_nat row i fzero Hrow), IH. reflexivity.
Qed.

Lemma dict_lookup_app {V : Type} (k : string) (a b : dict V) :
  dict_lookup k (a ++ b)%list
  = match dict_lookup k a with Some v => Some v | None => dict_lookup k b end.
Proof.
  induction a as [|[k' v'] a IH]; [reflexivity|].
  cbn [app dict_lookup]. destruct (String.eqb k k'); [reflexivity | exact IH].
Qed.

Lemma dict_set_fresh {V : Type} (k : string) (v : V) (d : dict V) :
  dict_lookup k d = None -> dict_set k v d = (d ++ [(k, v)])%list.
Proof.
  induction d as [|[k' v'] d IH]; [reflexivity|].
  cbn [dict_lookup dict_set app].
  destruct (String.eqb k k'); [discriminate|]. intros H. now rewrite IH.
Qed.

Section OutputTables.
Context {ext : Externals} {host : Host}.

Lemma point_fold_well_shaped (Y : matrix) (i : nat) (hs : list string) :
  forall (k : nat) (pre : dict float),
    NoDup hs ->
    (forall h, In h hs -> dict_lookup h pre = None) ->
    (k + List.length hs <= List.length Y)%nat ->
    Forall (fun row => (i < List.length row)%nat) Y ->
    fold_left
      (fun acc c =>
         point <- acc ;;
         v <- mat_at Y (fst c) (Z.of_nat i) ;;
         Ok (dict_set (snd c) v point))
      (combine (zrange (Z.of_nat k) (List.length hs)) hs) (Ok pre)
    = Ok (pre ++ combine hs (map (fun r => nth i (nth r Y []) fzero)
                               (seq k (List.length hs))))%list.
Proof.
  induction hs as [|h hs IH]; intros k pre Hnd Hfresh Hlen Hrows.
  - cbn. now rewrite app_nil_r.
  - cbn [List.length zrange combine fold_left seq map fst snd bind].
    cbn [List.length] in Hlen.
    assert (Hat : mat_at Y (Z.of_nat k) (Z.of_nat i)
                  = Ok (nth i (nth k Y []) fzero)).
    { unfold mat_at. rewrite (py_index_of_nat Y k []) by lia. cbn [bind].
      apply py_index_of_nat.
      rewrite Forall_forall in Hrows. apply Hrows. apply nth_In. lia. }
    rewrite Hat. cbn [bind].
    rewrite (dict_set_fresh h _ pre) by (apply Hfresh; left; reflexivity).
    replace (Z.of_nat k + 1) with (Z.of_nat (S k)) by lia.
    inversion Hnd as [|? ? Hnotin Hnd']; subst.
    rewrite IH; [now rewrite <- app_assoc | exact Hnd' | | lia | exact Hrows].
    intros h' Hin. rewrite dict_lookup_app, (Hfresh h' (or_intror Hin)).
    cbn [dict_lookup]. destruct (String.eqb h' h) eqn:E; [|reflexivity].
    apply String.eqb_eq in E. subst h'. contradiction.
Qed.

(** X8.  When the solver output has one row per header, each as long as
    the grid, and the headers are distinct and none is "t", the data of
    the response has one row per time index: the time under "t", then
    each header with the value of its row at that index. *)
Theorem data_rows_of_well_shaped_output t Y headers :
  well_shaped t Y headers ->
  NoDup headers ->
  ~ In "t" headers ->
  build_data_points t Y headers = data_table t Y headers
  /\ List.length (build_data_points t Y headers) = List.length t.
Proof.
  intros [Hrows Hcols] Hnd Ht.
  assert (H : build_data_points t Y headers = data_table t Y headers).
  { unfold build_data_points, data_table.
    rewrite py_range_zlen.
    rewrite (rows_until_total _
               (fun z => ("t", nth (Z.to_nat z) t fzero)
                         :: combine headers (column Y (Z.to_nat z)))).
    - cbn [fst]. rewrite map_map. apply map_ext. intros i. now rewrite Nat2Z.id.
    - intros z Hz. apply in_map_iff in Hz. destruct Hz as (i & <- & Hi).
      apply in_seq in Hi. rewrite Nat2Z.id. unfold data_point.
      rewrite (py_index_of_nat t i fzero) by lia. cbn [bind].
      unfold enumerate.
      etransitivity;
        [apply (point_fold_well_shaped Y i headers 0 [("t", nth i t fzero)])|].
      + exact Hnd.
      + intros h Hin. cbn [dict_lookup].
        destruct (String.eqb h "t") eqn:E; [|reflexivity].
        apply String.eqb_eq in E. subst h. contradiction.
      + lia.
      + eapply Forall_impl; [|exact Hcols]. cbn. intros row ->. lia.
      + cbn [app]. unfold column. rewrite <- Hrows.
        now rewrite (map_nth_seq (fun row => nth i row fzero) Y []). }
  split; [exact H|]. rewrite H. unfold data_table. now rewrite length_map, length_seq.
Qed.

Lemma point_fold_sticky (Y : matrix) (i : Z) (cs : list (Z * string)) e :
  fold_left
    (fun acc c =>
       point <- acc ;;
       v <- mat_at Y (fst c) i ;;
       Ok (dict_set (snd c) v point))
    cs (Raise e)
  = Raise e.
Proof. induction cs as [|c cs IH]; [reflexivity | exact IH]. Qed.

Lemma point_fold_surplus (Y : matrix) (i : Z) (hs : list string) :
  forall (k : nat) (acc : result (dict float)),
    (k <= List.length Y < k + List.length hs)%nat ->
    exists e,
      fold_left
        (fun acc c =>
           point <- acc ;;
           v <- mat_at Y (fst c) i ;;
           Ok (dict_set (snd c) v point))
        (combine (zrange (Z.of_nat k) (List.length hs)) hs) acc
      = Raise e.
Proof.
  induction hs as [|h hs IH]; intros k acc Hk; cbn [List.length] in Hk; [lia|].
  cbn [List.length zrange combine fold_left fst snd].
  replace (Z.of_nat k + 1) with (Z.of_nat (S k)) by lia.
  destruct acc as [pre|e]; cbn [bind]; [|exists e; apply point_fold_sticky].
  destruct (mat_at Y (Z.of_nat k) i) as [v|e] eqn:Hat; cbn [bind];
    [|exists e; apply point_fold_sticky].
  apply IH. split; [|lia].
  destruct (Nat.eq_dec k (List.length Y)) as [->|]; [|lia].
  unfold mat_at in Hat.
  destruct (py_index_out_of_range Y (List.length Y) (Nat.le_refl _)) as [e' He'].
  rewrite He' in Hat. discriminate.
Qed.

Lemma plot_curves_surplus (t : list float) (Y : matrix) (hs : list string) :
  forall k : nat,
    (k <= List.length Y < k + List.length hs)%nat ->
    exists e,
      mapM (plot_curve t Y) (combine (zrange (Z.of_nat k) (List.length hs)) hs)
      = Raise e.
Proof.
  induction hs as [|h hs IH]; intros k Hk; cbn [List.length] in Hk; [lia|].
  cbn [List.length zrange combine mapM].
  replace (Z.of_nat k + 1) with (Z.of_nat (S k)) by lia.
  destruct (plot_curve t Y (Z.of_nat k, h)) as [c|e] eqn:Hc; cbn [bind]; [|eauto].
  destruct (Nat.eq_dec k (List.length Y)) as [->|Hne].
  - unfold plot_curve, mat_row in Hc. cbn [fst] in Hc.
    destruct (py_index_out_of_range Y (List.length Y) (Nat.le_refl _)) as [e' He'].
    rewrite He' in Hc. discriminate.
  - destruct (IH (S k)) as [e He]; [lia|]. rewrite He. exists e. reflexivity.
Qed.

(** X9.  When the caller sends more initial-condition keys than the
    solver has state rows, every data row fails on the surplus key, so
    the data of the response is the empty list; the plot fails before
    anything is drawn, and no artifact is listed. *)
Theorem surplus_keys_drop_data_and_plot t Y headers :
  (List.length Y < List.length headers)%nat ->
  build_data_points t Y headers = []
  /\ forall run_id fs,
       (exists e, write_plot t Y headers run_id fs = (Raise e, fs))
       /\ fst (save_artifacts_step t Y headers run_id fs) = [].
Proof.
  intros Hlen. split.
  - unfold build_data_points. apply rows_until_all_raise. intros i.
    unfold data_point. destruct (py_index t i) as [ti|e]; cbn [bind]; [|eauto].
    apply (point_fold_surplus Y i headers 0). lia.
  - intros run_id fs.
    assert (Hplot : forall fs0, exists e, write_plot t Y headers run_id fs0 = (Raise e, fs0)).
    { intros fs0. unfold write_plot, enumerate.
      pose proof (plot_curves_surplus t Y headers 0) as Hp. cbn [Z.of_nat] in Hp.
      destruct Hp as [e ->]; [lia | eauto]. }
    split; [apply Hplot|].
    unfold save_artifacts_step.
    destruct (write_csv t Y headers run_id fs) as [[p|e] fs1]; [|reflexivity].
    destruct (Hplot fs1) as [e ->]. reflexivity.
Qed.

Lemma plot_curves_well_shaped (t : list float) (Y : matrix) (hs : list string) :
  forall k : nat,
    (k + List.length hs <= List.length Y)%nat ->
    Forall (fun row => List.length row = List.length t) Y ->
    mapM (plot_curve t Y) (combine (zrange (Z.of_nat k) (List.length hs)) hs)
    = Ok (combine hs (map (fun r => nth r Y []) (seq k (List.length hs)))).
Proof.
  induction hs as [|h hs IH]; intros k Hk Hrows; [reflexivity|].
  cbn [List.length] in Hk.
  cbn [List.length zrange combine mapM seq map].
  replace (Z.of_nat k + 1) with (Z.of_nat (S k)) by lia.
  unfold plot_curve at 1, mat_row. cbn [fst snd].
  rewrite (py_index_of_nat Y k []) by lia. cbn [bind].
  assert (Hrow : List.length (nth k Y []) = List.length t).
  { rewrite Forall_forall in Hrows. apply Hrows. apply nth_In. lia. }
  rewrite Hrow, Nat.eqb_refl. cbn [bind].
  rewrite IH by (lia || exact Hrows). reflexivity.
Qed.

(** X10.  For a solver output that fits the headers, saving artifacts
    writes to [OUT_DIR/<run_id>.csv] the header [t, headers...] and one
    row per time index with the time and every state value, then plots
    each row under its header to [OUT_DIR/<run_id>.png]; the two
    descriptors (csv, then plot, without hash) are returned only if both
    writes go through. *)
Theorem artifacts_of_well_shaped_output t Y headers run_id fs :
  well_shaped t Y headers ->
  save_artifacts_step t Y headers run_id fs =
    match fs_write_csv (OUT_DIR ++ "/" ++ run_id ++ ".csv")
            ((CStr "t" :: map CStr headers) :: csv_table t Y) fs with
    | (Raise _, fs1) => ([], fs1)
    | (Ok _, fs1) =>
        match fs_savefig (OUT_DIR ++ "/" ++ run_id ++ ".png")
                (t, combine headers Y) fs1 with
        | (Raise _, fs2) => ([], fs2)
        | (Ok _, fs2) =>
            ([ mkArtifact csv (OUT_DIR ++ "/" ++ run_id ++ ".csv") None;
               mkArtifact plot (OUT_DIR ++ "/" ++ run_id ++ ".png") None ], fs2)
        end
    end.
Proof.
  intros [Hrows Hcols].
  unfold save_artifacts_step, write_csv, write_plot.
  rewrite py_range_zlen.
  rewrite (rows_until_total _
             (fun z => CNum (nth (Z.to_nat z) t fzero)
                       :: map CNum (column Y (Z.to_nat z)))).
  - rewrite map_map.
    replace (map (fun i => CNum (nth (Z.to_nat (Z.of_nat i)) t fzero)
                           :: map CNum (column Y (Z.to_nat (Z.of_nat i))))
               (seq 0 (List.length t)))
      with (csv_table t Y)
      by (unfold csv_table; apply map_ext; intros i; now rewrite Nat2Z.id).
    destruct (fs_write_csv _ _ fs) as [[u|e] fs1]; [|reflexivity].
    unfold enumerate.
    pose proof (plot_curves_well_shaped t Y headers 0) as Hp. cbn [Z.of_nat] in Hp.
    rewrite Hp by (lia || exact Hcols).
    rewrite <- Hrows, (map_nth_seq (fun row => row) Y []), map_id.
    destruct (fs_savefig _ _ fs1) as [[u'|e] fs2]; reflexivity.
  - intros z Hz. apply in_map_iff in Hz. destruct Hz as (i & <- & Hi).
    apply in_seq in Hi. rewrite Nat2Z.id. unfold csv_row.
    rewrite (py_index_of_nat t i fzero) by lia. cbn [bind].
    rewrite mat_col_column; [reflexivity|].
    eapply Forall_impl; [|exact Hcols]. cbn. intros row ->. lia.
Qed.
End OutputTables.

(** ** The Monte Carlo solver: path count and output shape *)

Section MonteCarloShape.
Context {ext : Externals} {host : Host}.

Lemma mc_simulate_no_paths n_paths mu sigma S0 tspan steps g :
  n_paths <= 0 ->
  exists e, fst (mc_simulate n_paths mu sigma S0 tspan steps g) = Raise e.
Proof.
  intros Hn. unfold mc_simulate.
  destruct (np_linspace _ _ _) as [t|e]; [|eexists; reflexivity].
  destruct (n_paths <? 0) eqn:E; [eexists; reflexivity|]. apply Z.ltb_ge in E.
  assert (n_paths = 0) by lia. subst n_paths.
  destruct (steps =? 0); [eexists; reflexivity|].
  destruct (gbm_loop _ _ _ _ _ _ _) as [[cols|e] g1]; [|eexists; reflexivity].
  cbn [fst Z.to_nat repeat]. unfold mc_statistics. cbn [mapM np_min bind].
  eexists; reflexivity.
Qed.

Lemma simulate_monte_carlo_no_paths p y0 tspan steps meth g v n :
  dict_lookup "n_paths" p = Some v ->
  py_int v = Ok n ->
  n <= 0 ->
  exists e, fst (simulate_monte_carlo p y0 tspan steps meth g) = Raise e.
Proof.
  intros Hv Hint Hn. unfold simulate_monte_carlo. rewrite Hv, Hint.
  destruct (dict_lookup "seed" p) as [sd|].
  - destruct (bind (py_int sd) _) as [g0|e]; [|eexists; reflexivity].
    now apply mc_simulate_no_paths.
  - now apply mc_simulate_no_paths.
Qed.

(** X11.  A MonteCarlo request whose [n_paths] truncates to zero or less
    (0.7 does) never produces a trajectory: the solver raises, and the
    call ends in a "Solver error" result without touching the output
    directory. *)
Theorem monte_carlo_needs_a_path amb spec w v n :
  schema_gate spec = None ->
  in_domain spec = finance ->
  in_model_type spec = MonteCarlo ->
  dict_lookup "n_paths" (parameters spec) = Some v ->
  py_int v = Ok n ->
  n <= 0 ->
  exists e g',
    simulate_model amb spec w
    = (Returned {| content := "Solver error: " ++ exn_name e ++ ": " ++ exn_str e;
                   isError := true;
                   meta := None |},
       mkWorld g' (w_fs w)).
Proof.
  intros Hgate Hd Hm Hv Hint Hn.
  destruct (simulate_monte_carlo_no_paths (parameters spec) (initial_conditions spec)
              (ts_start (time_span spec), ts_end (time_span spec))
              (actual_steps (time_span spec)) (in_method spec) (w_rng w) v n
              Hv Hint Hn) as [e He].
  unfold simulate_model. rewrite Hgate, Hd, Hm. cbn [SOLVERS]. unfold call_solver.
  destruct (simulate_monte_carlo _ _ _ _ _ _) as [r g'].
  cbn [fst] in He. subst r. exists e, g'. reflexivity.
Qed.



End MonteCarloShape.

(** ** Which keys a solver reads *)

Lemma dict_get_app_default (k : string) (dflt : float) (p d : params) :
  dict_lookup k d = Some dflt ->
  dict_get k dflt (p ++ d)%list = dict_get k dflt p.
Proof.
  intros Hd. unfold dict_get. rewrite dict_lookup_app, Hd.
  destruct (dict_lookup k p); reflexivity.
Qed.

Lemma dict_lookup_app_absent (k : string) (p d : params) :
  dict_lookup k d = None ->
  dict_lookup k (p ++ d)%list = dict_lookup k p.
Proof.
  intros Hd. rewrite dict_lookup_app, Hd.
  destruct (dict_lookup k p); reflexivity.
Qed.

Section SolverKeys.
Context {ext : Externals}.

Ltac same_key H k :=
  let E := fresh "E" in
  assert (E := H k ltac:(cbn; tauto)); cbn in E; rewrite E; clear E.

(** X13.  A solver reads only its own parameter names and state-variable
    names: two calls whose dicts agree on those keys return the same,
    whatever other keys either dict carries. *)
Theorem solvers_read_only_their_keys d m solver p p' y0 y0' tspan steps meth g :
  SOLVERS (d, m) = Some solver ->
  agree_on (parameter_names m) p p' ->
  agree_on (state_variables m) y0 y0' ->
  solver p y0 tspan steps meth g = solver p' y0' tspan steps meth g.
Proof.
  intros Hreg Hp Hy.
  destruct d, m; cbn in Hreg; try discriminate; injection Hreg as <-;
    unfold agree_on in Hp, Hy; cbn [parameter_names state_variables] in Hp, Hy.
  - unfold ode_solver, simulate_sir, dict_get.
    same_key Hp "beta". same_key Hp "gamma".
    same_key Hy "S". same_key Hy "I". same_key Hy "R". reflexivity.
  - unfold ode_solver, simulate_lotka_volterra, dict_get.
    same_key Hp "alpha". same_key Hp "beta". same_key Hp "delta". same_key Hp "gamma".
    same_key Hy "x". same_key Hy "y". reflexivity.
  - unfold ode_solver, simulate_logistic, dict_get.
    same_key Hp "r". same_key Hp "K". same_key Hy "P". reflexivity.
  - unfold ode_solver, simulate_projectile, projectile_y0_vec, initial_velocity, dict_get.
    same_key Hp "g". same_key Hp "v0". same_key Hp "angle".
    same_key Hy "x". same_key Hy "y". same_key Hy "vx". same_key Hy "vy". reflexivity.
  - unfold simulate_monte_carlo, dict_get.
    same_key Hp "mu". same_key Hp "sigma". same_key Hp "n_paths". same_key Hp "seed".
    same_key Hy "S". reflexivity.
Qed.

(** X14.  A missing key stands for its default: appending the solver's
    defaults to the parameters and to the initial conditions the caller
    sent (so that they only fill what is absent) does not change what the
    solver returns. *)
Theorem defaults_fill_missing_keys d m solver p y0 tspan steps meth g :
  SOLVERS (d, m) = Some solver ->
  solver p y0 tspan steps meth g
  = solver (p ++ default_parameters m)%list (y0 ++ default_initial m)%list
           tspan steps meth g.
Proof.
  intros Hreg.
  destruct d, m; cbn in Hreg; try discriminate; injection Hreg as <-;
    cbn [default_parameters default_initial].
  - unfold ode_solver, simulate_sir.
    now rewrite !dict_get_app_default by reflexivity.
  - unfold ode_solver, simulate_lotka_volterra.
    now rewrite !dict_get_app_default by reflexivity.
  - unfold ode_solver, simulate_logistic.
    now rewrite !dict_get_app_default by reflexivity.
  - unfold ode_solver, simulate_projectile, projectile_y0_vec, initial_velocity.
    rewrite !dict_get_app_default by reflexivity.
    now rewrite !dict_lookup_app_absent by reflexivity.
  - unfold simulate_monte_carlo.
    rewrite !dict_get_app_default by reflexivity.
    rewrite (dict_lookup_app_absent "seed") by reflexivity.
    rewrite (dict_lookup_app "n_paths").
    destruct (dict_lookup "n_paths" p); reflexivity.
Qed.
End SolverKeys.

(** ** The theorems at concrete requests, on the reference instances *)

#[local] Existing Instance Reference.externals.
#[local] Existing Instance Reference.recording_host.

Lemma unregistered_pair_witness :
  let spec := Reference.request custom SIR [] [] (mkTimeSpan 0%float 1%float 10 false) in
  let w := mkWorld 7 [] in
  schema_gate spec = None
  /\ SOLVERS (in_domain spec, in_model_type spec) = None
  /\ simulate_model Reference.ambient spec w
     = (Returned {| content := "No solver registered for domain=custom, model_type=SIR";
                    isError := true;
                    meta := None |}, w).
Proof.
  intros spec w.
  split; [reflexivity|]. split; [reflexivity|].
  apply (unregistered_pair_is_reported Reference.ambient spec w); reflexivity.
Defined.

Lemma monte_carlo_response_escapes_witness :
  let w := mkWorld 7 [] in
  let run := call_solver simulate_monte_carlo Reference.mc_flat (w_rng w) in
  schema_gate Reference.mc_flat = None
  /\ in_domain Reference.mc_flat = finance
  /\ in_model_type Reference.mc_flat = MonteCarlo
  /\ run = (Ok (Reference.solver_output_of (fst run)), snd run)
  /\ exists e, fst (simulate_model Reference.ambient Reference.mc_flat w) = Escaped e.
Proof.
  intros w run.
  assert (H : run = (Ok (Reference.solver_output_of (fst run)), snd run))
    by (vm_compute; reflexivity).
  split; [reflexivity|]. split; [reflexivity|]. split; [reflexivity|].
  split; [exact H|].
  exact (monte_carlo_response_escapes Reference.ambient Reference.mc_flat w _ _
           eq_refl eq_refl eq_refl H).
Defined.

Lemma caller_keys_label_the_rows_witness :
  let w := mkWorld 7 [] in
  let r := Reference.result_of (fst (simulate_model Reference.ambient Reference.sir_swapped w)) in
  let o := Reference.output_of r in
  fst (simulate_model Reference.ambient Reference.sir_swapped w) = Returned r
  /\ meta r = Some o
  /\ columns o = Some ["t"; "I"; "S"]
  /\ data o = Some [ [("t", 0%float); ("I", 0.99%float); ("S", 0.01%float)];
                     [("t", 5%float); ("I", 0.99%float); ("S", 0.01%float)];
                     [("t", 10%float); ("I", 0.99%float); ("S", 0.01%float)] ].
Proof.
  intros w r o.
  assert (Hr : fst (simulate_model Reference.ambient Reference.sir_swapped w) = Returned r)
    by (vm_compute; reflexivity).
  assert (Ho : meta r = Some o) by (vm_compute; reflexivity).
  split; [exact Hr|]. split; [exact Ho|].
  split; [|vm_compute; reflexivity].
  exact (proj1 (caller_keys_label_the_rows Reference.ambient w r o Hr Ho)).
Defined.



Lemma projectile_velocity_policy_witness :
  let parameters := [("v0", 10%float); ("angle", 0%float)] in
  let y0 := [("vx", 3%float); ("vy", 0%float)] in
  let tspan := (0%float, 2%float) in
  dict_lookup "vx" y0 = Some 3%float
  /\ (3 =? 0)%float = false
  /\ dict_lookup "vy" y0 = Some 0%float
  /\ (0 =? 0)%float = true
  /\ np_linspace (fst tspan) (snd tspan) 3 = Ok [0; 1; 2]%float
  /\ simulate_projectile parameters y0 tspan 3 RK45
     = Ok (Reference.solver_output_of (simulate_projectile parameters y0 tspan 3 RK45))
  /\ nth 2 (projectile_y0_vec parameters y0) fzero = 3%float
  /\ nth 3 (projectile_y0_vec parameters y0) fzero
     = (10 * np_sin (0 * (pi / 180)))%float
  /\ snd (fst (Reference.solver_output_of (simulate_projectile parameters y0 tspan 3 RK45)))
     = [ [0; 0; 0]; [0; 0; 0]; [3; 3; 3]; [0; 0; 0] ]%float.
Proof.
  intros parameters y0 tspan.
  assert (Hgrid : np_linspace (fst tspan) (snd tspan) 3 = Ok [0; 1; 2]%float)
    by reflexivity.
  assert (Hrun : simulate_projectile parameters y0 tspan 3 RK45
                 = Ok (Reference.solver_output_of
                         (simulate_projectile parameters y0 tspan 3 RK45)))
    by (vm_compute; reflexivity).
  destruct (projectile_velocity_policy parameters y0 tspan 3 RK45)
    as (x0 & y0_val & vx0 & vy0 & Hvec & Hvx & _ & _ & Hvy & Hx & Hy & Hcall).
  assert (Evx : vx0 = 3%float) by (apply (Hvx 3%float); reflexivity).
  assert (Evy : vy0 = (10 * np_sin (0 * (pi / 180)))%float)
    by (apply Hvy; right; exists 0%float; split; reflexivity).
  specialize (Hcall _ Hgrid). rewrite Hx, Hy, Evx, Evy in Hcall.
  cbn in Hcall.
  destruct (Reference.solver_output_of (simulate_projectile parameters y0 tspan 3 RK45))
    as [[t Y] m] eqn:Eout.
  destruct (Hcall t Y m Hrun) as [_ HY].
  rewrite Hvec, Evx, Evy. cbn [nth fst snd].
  repeat (split; [reflexivity|]).
  split; [exact Hrun|]. split; [reflexivity|]. split; [reflexivity|].
  rewrite HY. vm_compute. reflexivity.
Defined.

Lemma flat_market_stays_flat_witness :
  let tspan := (0%float, 1%float) in
  1 <= 5
  /\ py_pow 0%float 2%float = 0%float
  /\ np_exp 0%float = 1%float
  /\ np_exp (-0)%float = 1%float
  /\ (exists g0, np_random_seed 42 = Ok g0)
  /\ is_finite (mc_dt tspan 5) = true
  /\ finite_draws (sqrt (mc_dt tspan 5)) 10
  /\ exists t m g',
       simulate_monte_carlo
         [("mu", 0%float); ("sigma", 0%float); ("n_paths", 10%float); ("seed", 42%float)]
         [("S", 100%float)] tspan 5 RK45 7
       = (Ok (t, [repeat 100%float (Z.to_nat 5)], m), g')
       /\ dict_lookup "prob_profit_pct" m = Some (VFloat 0%float).
Proof.
  intros tspan.
  assert (H1 : 1 <= 5) by lia.
  assert (Hpow : py_pow 0%float 2%float = 0%float) by reflexivity.
  assert (Hexp : np_exp 0%float = 1%float) by reflexivity.
  assert (Hexpn : np_exp (-0)%float = 1%float) by reflexivity.
  assert (Hseed : exists g0, np_random_seed 42 = Ok g0) by (exists 42; reflexivity).
  assert (Hdt : is_finite (mc_dt tspan 5) = true) by reflexivity.
  assert (Hrng : finite_draws (sqrt (mc_dt tspan 5)) 10).
  { intros g. exists (repeat 0%float 10), (g + 10).
    split; [reflexivity|]. split; [reflexivity|].
    repeat constructor. }
  repeat (split; [assumption|]).
  exact (flat_market_stays_flat tspan 5 RK45 7 H1 Hpow Hexp Hexpn Hseed Hdt Hrng).
Defined.

Lemma runs_are_reproducible_witness :
  let p := [("n_paths", 3%float); ("seed", 5%float)] in
  let y0 := [("S", 50%float)] in
  let spec := with_save_artifacts true
                (Reference.request epidemiology SIR [] [("S", 0.99%float); ("I", 0.01%float); ("R", 0%float)]
                   (mkTimeSpan 0%float 10%float 3 false)) in
  let later := {| utc_stamp := "20250630T120000"; uuid_hex8 := "deadbeef" |} in
  SOLVERS (finance, MonteCarlo) = Some simulate_monte_carlo
  /\ dict_mem "seed" p = true
  /\ fst (simulate_monte_carlo p y0 (0%float, 1%float) 4 RK45 1)
     = fst (simulate_monte_carlo p y0 (0%float, 1%float) 4 RK45 2)
  /\ in_model_type spec <> MonteCarlo
  /\ fst (simulate_model Reference.ambient spec (mkWorld 7 []))
     <> fst (simulate_model later spec (mkWorld 8 ["storage/old.csv"]))
  /\ numeric_view (fst (simulate_model Reference.ambient spec (mkWorld 7 [])))
     = numeric_view (fst (simulate_model later spec (mkWorld 8 ["storage/old.csv"]))).
Proof.
  intros p y0 spec later.
  assert (Hreg : SOLVERS (finance, MonteCarlo) = Some simulate_monte_carlo) by reflexivity.
  assert (Hseed : dict_mem "seed" p = true) by reflexivity.
  assert (Hne : in_model_type spec <> MonteCarlo) by discriminate.
  destruct (@runs_are_reproducible Reference.externals Reference.recording_host)
    as [Hsolver Htool].
  split; [exact Hreg|]. split; [exact Hseed|].
  split; [exact (Hsolver (finance, MonteCarlo) simulate_monte_carlo p y0
                   (0%float, 1%float) 4 RK45 1 2 Hreg (or_intror Hseed))|].
  split; [exact Hne|].
  split; [vm_compute; discriminate|].
  exact (proj1 (Htool spec Reference.ambient later (mkWorld 7 [])
                  (mkWorld 8 ["storage/old.csv"]) (or_introl Hne))).
Defined.

(** Without a seed the output does depend on the generator: on a generator
    whose draws follow its state, two states give two mean paths. *)
Example unseeded_runs_can_differ :
  let run := fun g : Z =>
    fst (@simulate_monte_carlo stateful_externals [("n_paths", 2%float)] []
           (0%float, 1%float) 3 RK45 g) in
  dict_mem "seed" [("n_paths", 2%float)] = false /\ run 1 <> run 2.
Proof.
  intros run. split; [reflexivity|]. intros H.
  assert (Hobs : forall r : result solver_output,
             r = run 2 ->
             match r with
             | Ok (_, [row], _) => (nth 2 row fzero <? 160)%float
             | _ => false
             end = false).
  { intros r ->. vm_compute. reflexivity. }
  specialize (Hobs (run 1) H). vm_compute in Hobs. discriminate Hobs.
Qed.

Lemma projectile_landing_metrics_witness :
  let p := [("g", 10%float)] in
  let y0 := [("vx", 1%float); ("vy", 5%float)] in
  let run := @simulate_projectile euler_externals p y0 (0%float, 3%float) 7 RK45 in
  let out := Reference.solver_output_of run in
  let y_vals := [0; 2.5; 2.5; 0; -5; -12.5; -22.5]%float in
  run = Ok (fst (fst out), snd (fst out), snd out)
  /\ mat_row (snd (fst out)) 1 = Ok y_vals
  /\ (nth 4 y_vals fzero <? 0)%float = true
  /\ (0 <=? nth 3 y_vals fzero)%float = true
  /\ find_landing_idx y_vals 0%float = 4
  /\ dict_lookup "range" (snd out) = Some (VFloat 2%float)
  /\ dict_lookup "t_landing" (snd out) = Some (VFloat 2%float)
  /\ dict_lookup "v_final" (snd out) = Some (VFloat (sqrt (1 * 1 + -15 * -15))%float).
Proof.
  intros p y0 run out y_vals.
  assert (Hrun : run = Ok (fst (fst out), snd (fst out), snd out))
    by (vm_compute; reflexivity).
  assert (Hrow : mat_row (snd (fst out)) 1 = Ok y_vals) by (vm_compute; reflexivity).
  assert (Hlt : (nth 4 y_vals fzero <? 0)%float = true) by reflexivity.
  assert (Hge : (0 <=? nth 3 y_vals fzero)%float = true) by reflexivity.
  destruct (@projectile_landing_metrics euler_externals p y0 (0%float, 3%float) 7 RK45
              _ _ _ Hrun)
    as (x_vals & ys & vx_vals & vy_vals & Hx & Hy & Hvx & Hvy & Hlast & _ & Hm).
  rewrite Hrow in Hy. injection Hy as <-.
  assert (Hx' : mat_row (snd (fst out)) 0 = Ok [0; 0.5; 1; 1.5; 2; 2.5; 3]%float)
    by (vm_compute; reflexivity).
  assert (Hvx' : mat_row (snd (fst out)) 2 = Ok [1; 1; 1; 1; 1; 1; 1]%float)
    by (vm_compute; reflexivity).
  assert (Hvy' : mat_row (snd (fst out)) 3 = Ok [5; 0; -5; -10; -15; -20; -25]%float)
    by (vm_compute; reflexivity).
  assert (Ht' : fst (fst out) = [0; 0.5; 1; 1.5; 2; 2.5; 3]%float)
    by (vm_compute; reflexivity).
  rewrite Hx' in Hx. injection Hx as <-.
  rewrite Hvx' in Hvx. injection Hvx as <-.
  rewrite Hvy' in Hvy. injection Hvy as <-.
  rewrite Ht' in Hm.
  assert (Hlen : 1 <= 4 < zlen y_vals) by (vm_compute; split; discriminate || reflexivity).
  destruct (Hlast 4 Hlen Hlt Hge) as (Hr & _ & _ & Hle).
  assert (Hidx : find_landing_idx y_vals (dict_get "y" 0.0%float y0) = 4)
    by reflexivity.
  rewrite Hidx in Hm.
  destruct Hm as (xr & tl & vx & vy & Hxr & Htl & Hvxr & Hvyr & Hrange & Htland & Hvfin).
  injection Hxr as <-. injection Htl as <-. injection Hvxr as <-. injection Hvyr as <-.
  split; [exact Hrun|]. split; [exact Hrow|]. split; [exact Hlt|]. split; [exact Hge|].
  split; [reflexivity|].
  split; [exact Hrange|]. split; [exact Htland | exact Hvfin].
Defined.


(** ** The further properties at concrete inputs *)

Lemma validated_steps_stay_valid_witness :
  2 <= 1000
  /\ _min_steps 1000 = Ok 1000
  /\ actual_steps (mkTimeSpan 0%float 1%float 1000 true) <= 100.
Proof.
  assert (H2 : 2 <= 1000) by lia.
  destruct (proj2 (validated_steps_stay_valid 1000) H2) as [Hok Hall].
  split; [exact H2|]. split; [exact Hok|].
  exact (proj1 (proj2 (Hall 0%float 1%float true)) eq_refl).
Defined.

Lemma registry_one_domain_per_model_witness :
  physics = home_domain Projectile /\ SOLVERS (physics, Projectile) <> None.
Proof.
  assert (H : physics = home_domain Projectile) by reflexivity.
  split; [exact H|].
  exact (proj2 (proj1 (registry_one_domain_per_model physics Projectile)) H).
Defined.

Lemma landing_index_in_range_witness :
  let y_vals := [0; 1; -1]%float in
  y_vals <> []
  /\ zlen [0; 5; 9]%float = zlen y_vals
  /\ 0 <= find_landing_idx y_vals 0%float < zlen y_vals
  /\ exists x, py_index [0; 5; 9]%float (find_landing_idx y_vals 0%float) = Ok x.
Proof.
  intros y_vals.
  assert (Hy : y_vals <> []) by discriminate.
  assert (Hx : zlen [0; 5; 9]%float = zlen y_vals) by reflexivity.
  destruct (landing_index_in_range y_vals [0; 5; 9]%float 0%float Hy) as [Hr Hi].
  split; [exact Hy|]. split; [exact Hx|]. split; [exact Hr | exact (Hi Hx)].
Defined.

Lemma metrics_view_keeps_order_witness :
  let m := [("a", VFloat 1%float); ("summary", VStr "s"); ("n", VInt 2)] in
  let mv := [("a", 1%float); ("n", 2%float)] in
  metrics_view m = Ok mv
  /\ dict_keys mv = ["a"; "n"]
  /\ dict_lookup "summary" mv = None.
Proof.
  intros m mv.
  assert (H : metrics_view m = Ok mv) by reflexivity.
  destruct (metrics_view_keeps_order m mv H) as (Hk & Hs & _).
  split; [exact H|]. split; [exact Hk | exact Hs].
Defined.

Lemma ode_request_succeeds_witness :
  let spec := Reference.request epidemiology SIR [] [("S", 0.99%float); ("I", 0.01%float); ("R", 0%float)]
                (mkTimeSpan 0%float 10%float 3 false) in
  let w := mkWorld 7 [] in
  let run := call_solver (ode_solver simulate_sir) spec (w_rng w) in
  schema_gate spec = None
  /\ in_model_type spec <> MonteCarlo
  /\ SOLVERS (in_domain spec, in_model_type spec) = Some (ode_solver simulate_sir)
  /\ run = (Ok (Reference.solver_output_of (fst run)), snd run)
  /\ exists o,
       fst (simulate_model Reference.ambient spec w)
         = Returned {| content := model_dump_json o; isError := false; meta := Some o |}
       /\ status o = success.
Proof.
  intros spec w run.
  assert (Hgate : schema_gate spec = None) by reflexivity.
  assert (Hne : in_model_type spec <> MonteCarlo) by discriminate.
  assert (Hreg : SOLVERS (in_domain spec, in_model_type spec)
                 = Some (ode_solver simulate_sir)) by reflexivity.
  assert (Hrun : run = (Ok (Reference.solver_output_of (fst run)), snd run))
    by (vm_compute; reflexivity).
  destruct (ode_request_succeeds Reference.ambient spec w _ _ _ Hgate Hne Hreg Hrun)
    as (o & Ho & Hs & _).
  split; [exact Hgate|]. split; [exact Hne|]. split; [exact Hreg|].
  split; [exact Hrun|]. exists o. split; assumption.
Defined.

Lemma no_artifacts_no_trace_witness :
  let spec := Reference.request physics Projectile [] [] (mkTimeSpan 0%float 2%float 4 false) in
  let w := mkWorld 7 ["storage/old.csv"] in
  save_artifacts spec = false
  /\ in_model_type spec <> MonteCarlo
  /\ snd (simulate_model Reference.ambient spec w) = w.
Proof.
  intros spec w.
  assert (Hsave : save_artifacts spec = false) by reflexivity.
  assert (Hne : in_model_type spec <> MonteCarlo) by discriminate.
  split; [exact Hsave|]. split; [exact Hne|].
  exact (proj2 (no_artifacts_no_trace Reference.ambient spec w Hsave) Hne).
Defined.

Lemma integrator_failure_is_reported_witness :
  let spec := with_save_artifacts true
                (Reference.request epidemiology Logistic [] [] (mkTimeSpan 0%float 1%float 3 false)) in
  let w := @mkWorld failing_externals Reference.recording_host 7 [] in
  let f := logistic_rhs 0.5%float 100.0%float in
  let sol := {| sol_success := false;
                sol_message := "Required step size is less than spacing between numbers.";
                sol_t := []; sol_y := [] |} in
  @schema_gate Reference.recording_host spec = None
  /\ @SOLVERS failing_externals (in_domain spec, in_model_type spec)
     = Some (@ode_solver failing_externals (@simulate_logistic failing_externals))
  /\ @ode_problem failing_externals (in_model_type spec) (parameters spec)
       (initial_conditions spec) = Some (f, [10.0%float])
  /\ np_linspace 0%float 1%float 3 = Ok [0; 0.5; 1]%float
  /\ solve_ivp (Externals := failing_externals) f (0%float, 1%float) [10.0%float]
       RK45 [0; 0.5; 1]%float 1e-6%float 1e-9%float = Ok sol
  /\ sol_success sol = false
  /\ @simulate_model failing_externals Reference.recording_host Reference.ambient spec w
     = (Returned {| content := "Solver error: RuntimeError: Required step size is less than spacing between numbers.";
                    isError := true;
                    meta := None |}, w).
Proof.
  intros spec w f sol.
  assert (Hgate : @schema_gate Reference.recording_host spec = None) by reflexivity.
  assert (Hreg : @SOLVERS failing_externals (in_domain spec, in_model_type spec)
                 = Some (@ode_solver failing_externals (@simulate_logistic failing_externals)))
    by reflexivity.
  assert (Hprob : @ode_problem failing_externals (in_model_type spec) (parameters spec)
                    (initial_conditions spec) = Some (f, [10.0%float])) by reflexivity.
  assert (Hgrid : np_linspace 0%float 1%float 3 = Ok [0; 0.5; 1]%float) by reflexivity.
  assert (Hsol : solve_ivp (Externals := failing_externals) f (0%float, 1%float)
                   [10.0%float] RK45 [0; 0.5; 1]%float 1e-6%float 1e-9%float = Ok sol)
    by reflexivity.
  assert (Hok : sol_success sol = false) by reflexivity.
  repeat (split; [assumption|]).
  exact (@integrator_failure_is_reported failing_externals Reference.recording_host
           Reference.ambient spec w _ f [10.0%float] [0; 0.5; 1]%float sol
           Hgate Hreg Hprob Hgrid Hsol Hok).
Defined.

Lemma data_rows_of_well_shaped_output_witness :
  let t := [0; 1]%float in
  let Y := [[1; 2]; [3; 4]]%float in
  let headers := ["a"; "b"] in
  well_shaped t Y headers
  /\ NoDup headers
  /\ ~ In "t" headers
  /\ build_data_points t Y headers
     = [ [("t", 0%float); ("a", 1%float); ("b", 3%float)];
         [("t", 1%float); ("a", 2%float); ("b", 4%float)] ].
Proof.
  intros t Y headers.
  assert (Hw : well_shaped t Y headers) by (split; [reflexivity | repeat constructor]).
  assert (Hnd : NoDup headers).
  { repeat constructor; cbn; intros H; decompose [or] H; discriminate || contradiction. }
  assert (Ht : ~ In "t" headers).
  { cbn. intros H; decompose [or] H; discriminate || contradiction. }
  split; [exact Hw|]. split; [exact Hnd|]. split; [exact Ht|].
  rewrite (proj1 (data_rows_of_well_shaped_output t Y headers Hw Hnd Ht)).
  reflexivity.
Defined.

Lemma surplus_keys_drop_data_and_plot_witness :
  let t := [0; 1]%float in
  let Y := [[1; 2]]%float in
  let headers := ["a"; "b"] in
  (List.length Y < List.length headers)%nat
  /\ build_data_points t Y headers = []
  /\ fst (save_artifacts_step t Y headers "run" []) = [].
Proof.
  intros t Y headers.
  assert (Hlen : (List.length Y < List.length headers)%nat) by (cbn; lia).
  destruct (surplus_keys_drop_data_and_plot t Y headers Hlen) as [Hdata Hart].
  split; [exact Hlen|]. split; [exact Hdata|].
  exact (proj2 (Hart "run" [])).
Defined.

Lemma artifacts_of_well_shaped_output_witness :
  let t := [0; 1]%float in
  let Y := [[1; 2]; [3; 4]]%float in
  let headers := ["a"; "b"] in
  well_shaped t Y headers
  /\ save_artifacts_step t Y headers "run" []
     = ([ mkArtifact csv "storage/run.csv" None; mkArtifact plot "storage/run.png" None ],
        ["storage/run.png"; "storage/run.csv"]).
Proof.
  intros t Y headers.
  assert (Hw : well_shaped t Y headers) by (split; [reflexivity | repeat constructor]).
  split; [exact Hw|].
  rewrite (artifacts_of_well_shaped_output (host := Reference.recording_host)
             t Y headers "run" [] Hw).
  reflexivity.
Defined.

Lemma monte_carlo_needs_a_path_witness :
  let spec := Reference.request finance MonteCarlo [("n_paths", 0.7%float)] [("S", 100%float)]
                (mkTimeSpan 0%float 1%float 5 false) in
  let w := mkWorld 7 [] in
  schema_gate spec = None
  /\ dict_lookup "n_paths" (parameters spec) = Some 0.7%float
  /\ py_int 0.7%float = Ok 0
  /\ exists e g',
       simulate_model Reference.ambient spec w
       = (Returned {| content := "Solver error: " ++ exn_name e ++ ": " ++ exn_str e;
                      isError := true;
                      meta := None |},
          mkWorld g' (w_fs w)).
Proof.
  intros spec w.
  assert (Hgate : schema_gate spec = None) by reflexivity.
  assert (Hv : dict_lookup "n_paths" (parameters spec) = Some 0.7%float) by reflexivity.
  assert (Hint : py_int 0.7%float = Ok 0) by reflexivity.
  split; [exact Hgate|]. split; [exact Hv|]. split; [exact Hint|].
  exact (monte_carlo_needs_a_path Reference.ambient spec w 0.7%float 0
           Hgate eq_refl eq_refl Hv Hint (Z.le_refl 0)).
Defined.


Lemma solvers_read_only_their_keys_witness :
  let p := [("beta", 0.5%float)] in
  let p' := [("note", 7%float); ("beta", 0.5%float)] in
  let y0 := [("I", 0.1%float)] in
  let y0' := [("I", 0.1%float); ("Q", 3%float)] in
  SOLVERS (epidemiology, SIR) = Some (ode_solver simulate_sir)
  /\ agree_on (parameter_names SIR) p p'
  /\ agree_on (state_variables SIR) y0 y0'
  /\ ode_solver simulate_sir p y0 (0%float, 1%float) 3 RK45 7
     = ode_solver simulate_sir p' y0' (0%float, 1%float) 3 RK45 7.
Proof.
  intros p p' y0 y0'.
  assert (Hreg : SOLVERS (epidemiology, SIR) = Some (ode_solver simulate_sir)) by reflexivity.
  assert (Hp : agree_on (parameter_names SIR) p p').
  { intros k Hk. cbn in Hk. decompose [or] Hk; subst; reflexivity || contradiction. }
  assert (Hy : agree_on (state_variables SIR) y0 y0').
  { intros k Hk. cbn in Hk. decompose [or] Hk; subst; reflexivity || contradiction. }
  split; [exact Hreg|]. split; [exact Hp|]. split; [exact Hy|].
  exact (solvers_read_only_their_keys epidemiology SIR _ p p' y0 y0'
           (0%float, 1%float) 3 RK45 7 Hreg Hp Hy).
Defined.

Lemma defaults_fill_missing_keys_witness :
  SOLVERS (finance, MonteCarlo) = Some simulate_monte_carlo
  /\ simulate_monte_carlo [("seed", 1%float)] [] (0%float, 1%float) 3 RK45 7
     = simulate_monte_carlo
         [("seed", 1%float); ("mu", 0.1%float); ("sigma", 0.2%float); ("n_paths", 100%float)]
         [("S", 100.0%float)] (0%float, 1%float) 3 RK45 7.
Proof.
  assert (Hreg : SOLVERS (finance, MonteCarlo) = Some simulate_monte_carlo) by reflexivity.
  split; [exact Hreg|].
  exact (defaults_fill_missing_keys finance MonteCarlo _ [("seed", 1%float)] []
           (0%float, 1%float) 3 RK45 7 Hreg).
Defined.
